(** * Verification of the optiFretSNCF scheduling code

    Shallow embedding of three parts of the repository:
    - [Notebook]: the Gurobi model of the notebook
      [code/notebooks/Code plus d'actualité.ipynb] (ordering, release/due,
      mutual exclusion on machines, calendar membership);
    - [Utils1]: the data-preparation helpers of [code/module/utils1.py]
      (hour parsing, correspondences, horizon, unavailability calendars);
    - [Utils]: the model-initialisation stubs of [code/module/utils.py]. *)

From Stdlib Require Import ZArith List Lia Bool String Ascii.
From stdpp Require Import base gmap strings list.
Import ListNotations.
Open Scope Z_scope.

(** Python exceptions that the modelled code can raise. *)
Inductive exc := TypeError | IndexError | ValueError | KeyError | FileNotFoundError.

(** The outcome of a Python computation: a value or a raised exception. *)
Inductive res (A : Type) := Ok (a : A) | Err (e : exc).
Arguments Ok {A} a.
Arguments Err {A} e.

Definition res_bind {A B} (r : res A) (f : A -> res B) : res B :=
  match r with Ok a => f a | Err e => Err e end.

Notation "'let?' x ':=' r 'in' k" := (res_bind r (fun x => k))
  (at level 200, x name, r at level 100, k at level 200).

(* ------------------------------------------------------------------ *)
Module Notebook.

(** ** Decision variables of the Gurobi model

    [t = addMVar((M,N), vtype=INTEGER)], [delta_1 = addMVar((M,N,N,2), BINARY)],
    [delta_2 = addMVar((M,N,11), BINARY)]. *)
Inductive var :=
| VT (m n : nat)
| VD1 (m n1 n2 k : nat)
| VD2 (m n i : nat).

(** Expressions built by the gurobipy operators used in the notebook. *)
Inductive expr :=
| EVar (v : var)
| EConst (z : Z)
| EAdd (a b : expr)
| ESub (a b : expr)
| EMul (a b : expr).

Inductive sense := LE | GE | EQ.

(** [addConstr(l s r)] and [addGenConstrIndicator(b, val, l s r)]. *)
Inductive constr :=
| CLin (l : expr) (s : sense) (r : expr)
| CInd (b : var) (val : bool) (l : expr) (s : sense) (r : expr).

(** A candidate solution gives every variable a value. *)
Definition assignment := var -> Z.

Fixpoint eval (a : assignment) (e : expr) : Z :=
  match e with
  | EVar v => a v
  | EConst z => z
  | EAdd x y => eval a x + eval a y
  | ESub x y => eval a x - eval a y
  | EMul x y => eval a x * eval a y
  end.

Definition holds (s : sense) (x y : Z) : bool :=
  match s with LE => x <=? y | GE => y <=? x | EQ => x =? y end.

(** An indicator constraint binds when its binary equals [val]. *)
Definition satb (a : assignment) (c : constr) : bool :=
  match c with
  | CLin l s r => holds s (eval a l) (eval a r)
  | CInd b val l s r =>
      if a b =? (if val then 1 else 0) then holds s (eval a l) (eval a r)
      else true
  end.

(** Variable domains: [t] is integer with gurobipy's default lower bound 0;
    [delta_1] and [delta_2] are binary. *)
Definition var_dom (v : var) (z : Z) : Prop :=
  match v with
  | VT _ _ => 0 <= z
  | VD1 _ _ _ _ | VD2 _ _ _ => z = 0 \/ z = 1
  end.

(** A feasible point of a model (a list of posted constraints). *)
Definition feasible (a : assignment) (model : list constr) : Prop :=
  (forall v, var_dom v (a v)) /\ forallb (satb a) model = true.

(** ** The notebook's cells, as commands on the list of posted constraints *)

Definition cmd := list constr -> res (list constr).

Definition addConstr (c : constr) : cmd := fun s => Ok (s ++ [c]).

Definition cmd_seq (c1 c2 : cmd) : cmd := fun s =>
  match c1 s with Ok s' => c2 s' | Err e => Err e end.

(** [for i in l: body(i)] *)
Fixpoint for_each (l : list nat) (body : nat -> cmd) : cmd :=
  match l with
  | [] => fun s => Ok s
  | i :: l' => cmd_seq (body i) (for_each l' body)
  end.

(** Successive [addConstr] calls. *)
Fixpoint add_all (cs : list constr) : cmd :=
  match cs with
  | [] => fun s => Ok s
  | c :: cs' => cmd_seq (addConstr c) (add_all cs')
  end.

Definition range (n : nat) : list nat := seq 0 n.
Definition range2 (a b : nat) : list nat := seq a (b - a).

Definition N : nat := 5.
Definition M : nat := 7.

(** [T = np.array([15,45,15,15,150,15,20])] *)
Definition T_list : list Z := [15; 45; 15; 15; 150; 15; 20].
Definition T (m : nat) : Z := nth m T_list 0.

(** [Limites = np.array([5,13,5*24+13,5*24+21,6*24+13,6*24+21,7*24+5,7*24+13])*60] *)
Definition Limites_list : list Z :=
  map (fun h => h * 60)
    [5; 13; 5*24+13; 5*24+21; 6*24+13; 6*24+21; 7*24+5; 7*24+13].
Definition Limites (i : nat) : Z := nth i Limites_list 0.

(** Python subscription [x[n]] of the arrival/departure data; the notebook
    binds [t_a = None] and [t_d = None], a [None] subscript raises [TypeError]. *)
Definition py_index (x : option (list Z)) (n : nat) : res Z :=
  match x with
  | None => Err TypeError
  | Some l => match nth_error l n with Some z => Ok z | None => Err IndexError end
  end.

Definition t_ (m n : nat) : expr := EVar (VT m n).
Definition T_ (m : nat) : expr := EConst (T m).

(** Cell "Contraintes de temporalité des tâches sur un même wagon et respect
    des heures de départ et d'arrivée":
<<
for n in range(N):
    model.addConstr(t[0,n] >= t_a[n])
    model.addConstr(t[M-1,n] + T[M-1] <= t_d[n])
    for m in range(M-1):
        model.addConstr(t[m,n] + T[m] <= t[m+1,n])
>> *)
Definition cell_ordering (t_a t_d : option (list Z)) : cmd :=
  for_each (range N) (fun n s =>
    let? ta := py_index t_a n in
    let? s1 := addConstr (CLin (t_ 0 n) GE (EConst ta)) s in
    let? td := py_index t_d n in
    let? s2 := addConstr (CLin (EAdd (t_ (M-1) n) (T_ (M-1))) LE (EConst td)) s1 in
    for_each (range (M-1)) (fun m =>
      addConstr (CLin (EAdd (t_ m n) (T_ m)) LE (t_ (m+1) n))) s2).

(** Cell "au plus un wagon par machine à chaque instant":
<<
for m in [2,4,5]:
    for n1 in range(N-1):
        for n2 in range(n1+1,N):
            model.addGenConstrIndicator(delta_1[m,n1,n2,0], True, t[m,n2] <= t[m,n1] - T[m])
            model.addGenConstrIndicator(delta_1[m,n1,n2,1], True, t[m,n2] >= t[m,n1] + T[m])
            model.addConstr(delta_1[m,n1,n2,0] + delta_1[m,n1,n2,1] >= 1)
>> *)
Definition machines : list nat := [2; 4; 5]%nat.

Definition exclusion_constrs (m n1 n2 : nat) : list constr :=
    [ CInd (VD1 m n1 n2 0) true (t_ m n2) LE (ESub (t_ m n1) (T_ m));
      CInd (VD1 m n1 n2 1) true (t_ m n2) GE (EAdd (t_ m n1) (T_ m));
      CLin (EAdd (EVar (VD1 m n1 n2 0)) (EVar (VD1 m n1 n2 1))) GE (EConst 1) ].

Definition exclusion_pair (m n1 n2 : nat) : cmd :=
  add_all (exclusion_constrs m n1 n2).

Definition cell_exclusion : cmd :=
  for_each machines (fun m =>
    for_each (range (N-1)) (fun n1 =>
      for_each (range2 (n1+1) N) (fun n2 => exclusion_pair m n1 n2))).

(** Cell "respect de l'ouverture du chantier de formation et de la
    disponibilité des machines", for [m in [2,3,4,5]] and [n in range(N)]:
    eight indicator constraints, three products and one covering
    constraint [d0 + d8 + d9 + d10 + d7 >= 1]. *)
Definition calendar_tasks : list nat := [2; 3; 4; 5]%nat.

Definition d2 (m n i : nat) : expr := EVar (VD2 m n i).

Definition calendar_constrs (m n : nat) : list constr :=
    [ CInd (VD2 m n 0) true (t_ m n) LE (ESub (EConst (Limites 0)) (T_ m));
      CInd (VD2 m n 1) true (t_ m n) GE (EConst (Limites 1));
      CInd (VD2 m n 2) true (t_ m n) LE (ESub (EConst (Limites 2)) (T_ m));
      CInd (VD2 m n 3) true (t_ m n) GE (EConst (Limites 3));
      CInd (VD2 m n 4) true (t_ m n) LE (ESub (EConst (Limites 4)) (T_ m));
      CInd (VD2 m n 5) true (t_ m n) GE (EConst (Limites 5));
      CInd (VD2 m n 6) true (t_ m n) LE (ESub (EConst (Limites 6)) (T_ m));
      CInd (VD2 m n 7) true (t_ m n) GE (EConst (Limites 7));
      CLin (d2 m n 8) EQ (EMul (d2 m n 1) (d2 m n 2));
      CLin (d2 m n 9) EQ (EMul (d2 m n 3) (d2 m n 4));
      CLin (d2 m n 10) EQ (EMul (d2 m n 5) (d2 m n 6));
      CLin (EAdd (EAdd (EAdd (EAdd (d2 m n 0) (d2 m n 8)) (d2 m n 9)) (d2 m n 10))
              (d2 m n 7)) GE (EConst 1) ].

Definition calendar_block (m n : nat) : cmd :=
  add_all (calendar_constrs m n).

Definition cell_calendar : cmd :=
  for_each calendar_tasks (fun m =>
    for_each (range N) (fun n => calendar_block m n)).


(** ** Reading the posted model *)

(** A command never removes a posted constraint ... *)
Definition grows (c : cmd) : Prop :=
  forall s s', c s = Ok s' -> forall x, In x s -> In x s'.

(** ... and [posts c x] says that [c] always leaves [x] in the model. *)
Definition posts (c : cmd) (x : constr) : Prop :=
  forall s s', c s = Ok s' -> In x s'.

(** The five open windows of the training yard left by [Limites]: before
    [Limites[0]], between [Limites[1]] and [Limites[2]], between [Limites[3]]
    and [Limites[4]], between [Limites[5]] and [Limites[6]], after
    [Limites[7]]; [in_window t d k] says that [[t, t+d)] fits in window [k]. *)
Definition in_window (t d : Z) (k : nat) : bool :=
  match k with
  | 0%nat => t + d <=? Limites 0
  | 1%nat => (Limites 1 <=? t) && (t + d <=? Limites 2)
  | 2%nat => (Limites 3 <=? t) && (t + d <=? Limites 4)
  | 3%nat => (Limites 5 <=? t) && (t + d <=? Limites 6)
  | 4%nat => Limites 7 <=? t
  | _ => false
  end.

(** The selector sum of the covering constraint of task [m] of wagon [n]. *)
Definition calendar_selectors (a : assignment) (m n : nat) : Z :=
  a (VD2 m n 0) + a (VD2 m n 8) + a (VD2 m n 9) + a (VD2 m n 10) + a (VD2 m n 7).

(** Sum of the eight indicator binaries [delta_2[m,n,0..7]]. *)
Definition indicator_sum (a : assignment) (m n : nat) : Z :=
  fold_right Z.add 0 (map (fun i => a (VD2 m n i)) (range 8)).

(** Concrete data used to exercise the theorems. *)
Definition ex_release : list Z := repeat 0 N.
Definition ex_due : list Z := repeat 2000 N.

Definition model_of (r : res (list constr)) : list constr :=
  match r with Ok s => s | Err _ => [] end.

(** Tasks start every 200 minutes along a wagon; every binary is 0. *)
Definition ex_ordering_sol : assignment := fun v =>
  match v with VT m _ => 200 * Z.of_nat m | _ => 0 end.

(** On each machine wagon [n] starts at [200 n]; the "after" binary is set. *)
Definition ex_exclusion_sol : assignment := fun v =>
  match v with
  | VT _ n => 200 * Z.of_nat n
  | VD1 _ _ _ 1%nat => 1
  | _ => 0
  end.

(** Every task starts at [Limites[7]] and every "after [Limites[i]]"
    indicator ([i] odd) is set. *)
Definition ex_calendar_sol : assignment := fun v =>
  match v with
  | VT _ _ => Limites 7
  | VD2 _ _ i => if orb (orb (Nat.eqb i 1) (Nat.eqb i 3)) (orb (Nat.eqb i 5) (Nat.eqb i 7))
                 then 1 else 0
  | _ => 0
  end.

(** ** Reading a schedule back into the model

    A schedule [sched m n] gives the start of task [m] of wagon [n].
    [point_of sched] completes it into a point of the model: the order
    binaries [delta_1[m,n1,n2,0..1]] are set when their branch holds, and
    the calendar binaries [delta_2[m,n,0..10]] select the window that holds
    [[t, t+T[m]]]. *)
Definition b2z (b : bool) : Z := if b then 1 else 0.

(** Window of [Limites] read by each of the eleven calendar binaries:
    [0] window 0; [1], [2], [8] window 1; [3], [4], [9] window 2;
    [5], [6], [10] window 3; [7] window 4. *)
Definition calendar_window (i : nat) : nat :=
  match i with
  | 0%nat => 0 | 1%nat | 2%nat | 8%nat => 1 | 3%nat | 4%nat | 9%nat => 2
  | 5%nat | 6%nat | 10%nat => 3 | 7%nat => 4 | _ => 5
  end.

Definition point_of (sched : nat -> nat -> Z) : assignment := fun v =>
  match v with
  | VT m n => sched m n
  | VD1 m n1 n2 0%nat => b2z (sched m n2 <=? sched m n1 - T m)
  | VD1 m n1 n2 1%nat => b2z (sched m n1 + T m <=? sched m n2)
  | VD1 _ _ _ _ => 0
  | VD2 m n i => b2z (in_window (sched m n) (T m) (calendar_window i))
  end.

(** What the ordering cell asks of a schedule: release, due and order of
    the tasks of every wagon. *)
Definition ordering_ok (ta td : list Z) (sched : nat -> nat -> Z) : Prop :=
  forall n, (n < N)%nat ->
    nth n ta 0 <= sched 0%nat n /\ sched (M-1)%nat n + T (M-1) <= nth n td 0 /\
    (forall m, (m < M - 1)%nat -> sched m n + T m <= sched (S m) n).

(** What the exclusion cell asks: two wagons never overlap on a machine. *)
Definition exclusion_ok (sched : nat -> nat -> Z) : Prop :=
  forall m n1 n2, In m machines -> (n1 < n2 < N)%nat ->
    sched m n2 + T m <= sched m n1 \/ sched m n1 + T m <= sched m n2.

(** What the calendar cell asks: every task of [calendar_tasks] fits in an
    open window of [Limites]. *)
Definition calendar_ok (sched : nat -> nat -> Z) : Prop :=
  forall m n, In m calendar_tasks -> (n < N)%nat ->
    exists k, in_window (sched m n) (T m) k = true.

(** The constraints the cells post, listed in loop order. *)
Definition ordering_block (ta td : list Z) (n : nat) : list constr :=
  [CLin (t_ 0 n) GE (EConst (nth n ta 0));
   CLin (EAdd (t_ (M-1) n) (T_ (M-1))) LE (EConst (nth n td 0))] ++
  map (fun m => CLin (EAdd (t_ m n) (T_ m)) LE (t_ (m+1) n)) (range (M-1)).

Definition ordering_constrs (ta td : list Z) : list constr :=
  flat_map (ordering_block ta td) (range N).

Definition exclusion_all : list constr :=
  flat_map (fun m => flat_map (fun n1 => flat_map (fun n2 => exclusion_constrs m n1 n2)
    (range2 (n1+1) N)) (range (N-1))) machines.

Definition calendar_all : list constr :=
  flat_map (fun m => flat_map (fun n => calendar_constrs m n) (range N)) calendar_tasks.

(** The notebook's cells run in order on an empty model, once [t_a] and
    [t_d] hold data. *)
Definition notebook_model (ta td : list Z) : res (list constr) :=
  let? s1 := cell_ordering (Some ta) (Some td) [] in
  let? s2 := cell_exclusion s1 in
  cell_calendar s2.

(** A schedule used to exercise the theorems: wagon [n] starts task [m]
    at [Limites[7] + 1000 n + 200 m]. *)
Definition ex_sched : nat -> nat -> Z := fun m n =>
  Limites 7 + 1000 * Z.of_nat n + 200 * Z.of_nat m.
Definition ex_ta : list Z := repeat 0 N.
Definition ex_td : list Z := repeat 20000 N.

End Notebook.

(* ------------------------------------------------------------------ *)
Module Utils1.

(** ** Characters of a Python [str]

    A [str] is a sequence of code points; the data handled here stays in
    Latin-1, so a code point is an [ascii] byte read as a number. *)

Definition code (c : ascii) : nat := nat_of_ascii c.

(** [str.isspace] on Latin-1: [\t \n \v \f \r], [\x1c]-[\x1f], space,
    [\x85] and [\xa0]. *)
Definition py_isspace (c : ascii) : bool :=
  let n := code c in
  ((9 <=? n) && (n <=? 13))%nat || ((28 <=? n) && (n <=? 32))%nat
  || (n =? 133)%nat || (n =? 160)%nat.

(** [\d] and [str.isdecimal]: Latin-1 has no decimal digits besides 0-9. *)
Definition is_digit (c : ascii) : bool := ((48 <=? code c) && (code c <=? 57))%nat.

Definition digit_val (c : ascii) : Z := Z.of_nat (code c - 48).

Fixpoint lstrip (l : list ascii) : list ascii :=
  match l with
  | c :: l' => if py_isspace c then lstrip l' else l
  | [] => []
  end.

Definition strip (l : list ascii) : list ascii := rev (lstrip (rev (lstrip l))).

(** [str.split(sep)] *)
Fixpoint split_on (sep : ascii) (l : list ascii) : list (list ascii) :=
  match l with
  | [] => [[]]
  | c :: l' =>
      if Ascii.eqb c sep then [] :: split_on sep l'
      else match split_on sep l' with
           | p :: ps => (c :: p) :: ps
           | [] => [[c]]
           end
  end.

(** Digits of a base-10 [int()] literal: single underscores are allowed
    between two digits; the underscores are dropped. *)
Fixpoint digits_body (l : list ascii) : option (list ascii) :=
  match l with
  | [] => Some []
  | c :: l' =>
      if is_digit c then option_map (cons c) (digits_body l')
      else if Ascii.eqb c "_" then
        match l' with
        | d :: l'' => if is_digit d then option_map (cons d) (digits_body l'') else None
        | [] => None
        end
      else None
  end.

Definition digits_value (ds : list ascii) : Z :=
  fold_left (fun acc c => acc * 10 + digit_val c) ds 0.

(** [int(s)] for a [str] [s]: surrounding whitespace, an optional sign,
    digits with underscores between them, at most 4300 digits
    ([sys.get_int_max_str_digits()]); anything else raises [ValueError],
    represented by [None]. *)
Definition py_int (s : list ascii) : option Z :=
  let l := strip s in
  let '(neg, body) :=
    match l with
    | c :: r => if Ascii.eqb c "-" then (true, r)
                else if Ascii.eqb c "+" then (false, r) else (false, l)
    | [] => (false, l)
    end in
  match body with
  | d :: _ =>
      if is_digit d then
        match digits_body body with
        | Some ds => if (length ds <=? 4300)%nat
                     then Some (if neg then - digits_value ds else digits_value ds)
                     else None
        | None => None
        end
      else None
  | [] => None
  end.

Definition py_int_res (s : list ascii) : res Z :=
  match py_int s with Some z => Ok z | None => Err ValueError end.

(** ** [convert_hour_to_minutes]

    A data-frame cell: [None], [float('nan')], [NaT], a boolean, an int, a
    float that is not NaN, a [str], or another scalar (a [datetime.time],
    a [Timestamp], ...). *)
Inductive pyval :=
| VNone | VNaN | VNaT
| VBool (b : bool) | VInt (z : Z) | VFloat | VStr (s : string) | VOther.

(** [pd.isna] on a scalar. *)
Definition py_isna (x : pyval) : bool :=
  match x with VNone | VNaN | VNaT => true | _ => false end.

Definition py_isstr (x : pyval) : bool :=
  match x with VStr _ => true | _ => false end.

(** Body of the [try]:
    [hours, minutes = map(int, hour_str.split(':')); return hours * 60 + minutes].
    Unpacking a sequence of the wrong length raises [ValueError]. *)
Definition hour_try (s : string) : res Z :=
  match split_on ":" (list_ascii_of_string s) with
  | [ph; pm] =>
      let? hours := py_int_res ph in
      let? minutes := py_int_res pm in
      Ok (hours * 60 + minutes)
  | _ => Err ValueError
  end.

(**
<<
def convert_hour_to_minutes(hour_str):
    if pd.isna(hour_str) or not isinstance(hour_str, str):
        return None
    try:
        hours, minutes = map(int, hour_str.split(':'))
        return hours * 60 + minutes
    except ValueError:
        return None
>> *)
Definition convert_hour_to_minutes (hour_str : pyval) : res (option Z) :=
  if py_isna hour_str || negb (py_isstr hour_str) then Ok None
  else match hour_str with
       | VStr s =>
           match hour_try s with
           | Ok z => Ok (Some z)
           | Err ValueError => Ok None
           | Err e => Err e
           end
       | _ => Ok None
       end.

(** ** The regular expression of [convertir_en_minutes]

    [r"\((\d+),\s*(\d{1,2}):(\d{2})-(\d{1,2}):(\d{2})\)"].  Every quantified
    atom is followed by a character it cannot match (a digit run by [,],
    [:], [-] or [)], the blanks by a digit), so backtracking never changes the
    outcome and a greedy scan decides a match at a position. *)

Fixpoint span_digits (l : list ascii) : list ascii * list ascii :=
  match l with
  | c :: l' => if is_digit c then let '(ds, r) := span_digits l' in (c :: ds, r) else ([], l)
  | [] => ([], [])
  end.

Fixpoint skip_space (l : list ascii) : list ascii :=
  match l with
  | c :: l' => if py_isspace c then skip_space l' else l
  | [] => []
  end.

(** [\d{1,2}] (greedy) *)
Definition digits12 (l : list ascii) : option (list ascii * list ascii) :=
  match l with
  | a :: b :: r => if is_digit a then (if is_digit b then Some ([a; b], r) else Some ([a], b :: r))
                   else None
  | [a] => if is_digit a then Some ([a], []) else None
  | [] => None
  end.

(** [\d{2}] *)
Definition digits2 (l : list ascii) : option (list ascii * list ascii) :=
  match l with
  | a :: b :: r => if is_digit a && is_digit b then Some ([a; b], r) else None
  | _ => None
  end.

Definition expect (c : ascii) (l : list ascii) : option (list ascii) :=
  match l with
  | d :: r => if Ascii.eqb c d then Some r else None
  | [] => None
  end.

Definition opt_bind {A B} (o : option A) (f : A -> option B) : option B :=
  match o with Some a => f a | None => None end.

Notation "'let*' x ':=' o 'in' k" := (opt_bind o (fun x => k))
  (at level 200, x pattern, o at level 100, k at level 200).

(** The five groups of a match. *)
Record groups := mkgroups { g1 : list ascii; g2 : list ascii; g3 : list ascii;
                            g4 : list ascii; g5 : list ascii }.

(** [pattern.match(s, pos)]: the groups and the text after the match. *)
Definition match_at (l : list ascii) : option (groups * list ascii) :=
  let* l1 := expect "(" l in
  let* (d1, l2) := (let '(ds, r) := span_digits l1 in
                    match ds with [] => None | _ => Some (ds, r) end) in
  let* l3 := expect "," l2 in
  let* (d2, l4) := digits12 (skip_space l3) in
  let* l5 := expect ":" l4 in
  let* (d3, l6) := digits2 l5 in
  let* l7 := expect "-" l6 in
  let* (d4, l8) := digits12 l7 in
  let* l9 := expect ":" l8 in
  let* (d5, l10) := digits2 l9 in
  let* l11 := expect ")" l10 in
  Some (mkgroups d1 d2 d3 d4 d5, l11).

(** [re.finditer(pattern, s)]: try every position from the left; after a
    match, go on after it.  Matches are never empty, so [length l] steps
    suffice. *)
Fixpoint finditer_fuel (fuel : nat) (l : list ascii) : list groups :=
  match fuel with
  | O => []
  | S f =>
      match l with
      | [] => []
      | _ :: l' =>
          match match_at l with
          | Some (g, rest) => g :: finditer_fuel f rest
          | None => finditer_fuel f l'
          end
      end
  end.

Definition finditer (s : string) : list groups :=
  let l := list_ascii_of_string s in finditer_fuel (length l) l.

(** ** Workbooks

    An instance workbook, as [pd.read_excel] returns its sheets: the
    departure train paths ('Sillons depart', the [JDEP] and [HDEP] columns
    already joined and parsed by [pd.to_datetime], in seconds since the
    epoch), the arrival train paths, and the [INDISPONIBILITE] column of the
    'Machines' sheet after [.astype(str)], one row per machine. *)
Record workbook := mkworkbook {
  sillons_arrivee : list Z;
  sillons_depart : list Z;
  machines_indisponibilite : list string }.

(** The files the program can open. *)
Definition fsys := string -> option workbook.

(** [read_sillon(file)]: both train-path sheets. *)
Definition read_sillon (fs : fsys) (file : string) : res (list Z * list Z) :=
  match fs file with
  | Some wb => Ok (sillons_arrivee wb, sillons_depart wb)
  | None => Err FileNotFoundError
  end.

(** [base_time(id_file)]: [Timestamp('2023-05-01 00:00')] for file 0,
    [Timestamp('2022-08-08 00:00')] for the second instance file, [None]
    otherwise (seconds since the epoch).  The compiled module stores the
    second compared identifier as a marshal back-reference whose index byte
    is unreadable; it is read as [1], the second instance. *)
Definition base_time (id_file : Z) : option Z :=
  if id_file =? 0 then Some 1682899200
  else if id_file =? 1 then Some 1659916800
  else None.

(** [dernier_depart(df_sillons_dep, base_time_value)]:
    [(max departure - base_time_value).total_seconds() / 60], kept in
    seconds here; [None] is the NaN obtained from an empty sheet ([NaT]).
    Subtracting [None] from a timestamp raises [TypeError]. *)
Definition dernier_depart (df_sillons_dep : list Z) (base_time_value : option Z)
    : res (option Z) :=
  match base_time_value with
  | None => Err TypeError
  | Some b =>
      Ok (match df_sillons_dep with
          | [] => None
          | d :: ds => Some (fold_left Z.max ds d - b)
          end)
  end.

(** [x > dernier_depart(...)] for an int [x] of minutes against a horizon
    of [sec] seconds, i.e. [x > sec / 60]; every comparison with NaN is
    false. *)
Definition gt_horizon (x : Z) (h : option Z) : bool :=
  match h with None => false | Some sec => sec <? 60 * x end.

(** ** [convertir_en_minutes] *)

(** One match to a window in minutes:
    [jour = int(g1)], [debut_minutes = (jour - 1) * 1440 + debut_h * 60 + debut_m],
    [fin_minutes = (jour - 1) * 1440 + fin_h * 60 + fin_m]. *)
Definition window_of (g : groups) : res (Z * Z) :=
  let? jour := py_int_res (g1 g) in
  let? debut_h := py_int_res (g2 g) in
  let? debut_m := py_int_res (g3 g) in
  let? fin_h := py_int_res (g4 g) in
  let? fin_m := py_int_res (g5 g) in
  Ok ((jour - 1) * 1440 + debut_h * 60 + debut_m,
      (jour - 1) * 1440 + fin_h * 60 + fin_m).

Fixpoint plages_of (gs : list groups) : res (list (Z * Z)) :=
  match gs with
  | [] => Ok []
  | g :: gs' => let? w := window_of g in let? ws := plages_of gs' in Ok (w :: ws)
  end.

Definition semaine_minutes : Z := 7 * 24 * 60.

(** [[(deb + off, fin + off) for deb, fin in plages_originales]] *)
Definition shift_week (semaine : Z) (plages : list (Z * Z)) : list (Z * Z) :=
  map (fun '(deb, fin) => (deb + semaine * semaine_minutes, fin + semaine * semaine_minutes))
    plages.

(** The [while True] loop; [None] when [fuel] iterations do not end it.
<<
while True:
    semaine_offsets = semaine * 7 * 24 * 60
    nouvelles_plages = [(deb + semaine_offsets, fin + semaine_offsets)
                        for deb, fin in plages_originales]
    if not nouvelles_plages: break
    plages_etendues.extend(nouvelles_plages)
    if nouvelles_plages[-1][1] > dernier_depart(df_sillons_dep, base_time(id_file)):
        break
    semaine += 1
>> *)
Fixpoint boucle (fuel : nat) (plages : list (Z * Z)) (df_sillons_dep : list Z)
    (id_file : Z) (semaine : Z) (plages_etendues : list (Z * Z))
    : option (res (list (Z * Z))) :=
  match fuel with
  | O => None
  | S f =>
      let nouvelles_plages := shift_week semaine plages in
      match nouvelles_plages with
      | [] => Some (Ok plages_etendues)
      | _ =>
          let plages_etendues' := plages_etendues ++ nouvelles_plages in
          match dernier_depart df_sillons_dep (base_time id_file) with
          | Err e => Some (Err e)
          | Ok h =>
              if gt_horizon (snd (List.last nouvelles_plages (0, 0))) h
              then Some (Ok plages_etendues')
              else boucle f plages df_sillons_dep id_file (semaine + 1) plages_etendues'
          end
      end
  end.

(** [convertir_en_minutes(indisponibilites, file, id_file)]; [None] when the
    loop runs out of [fuel]. *)
Definition convertir_en_minutes (fuel : nat) (indisponibilites : string)
    (fs : fsys) (file : string) (id_file : Z) : option (res (list (Z * Z))) :=
  match read_sillon fs file with
  | Err e => Some (Err e)
  | Ok (_, df_sillons_dep) =>
      match plages_of (finditer indisponibilites) with
      | Err e => Some (Err e)
      | Ok [] => Some (Ok [])
      | Ok plages_originales =>
          boucle fuel plages_originales df_sillons_dep id_file 0 []
      end
  end.

(** ** [traitement_doublons] and [creation_limites_machines] *)

(** Inner [while] loop of [traitement_doublons]: two equal neighbours (the
    end of a window and the start of the next) are both dropped. *)
Fixpoint sans_doublons (elmt : list Z) : list Z :=
  match elmt with
  | x :: ((y :: r) as t) => if x =? y then sans_doublons r else x :: sans_doublons t
  | l => l
  end.

Definition traitement_doublons (liste : list (list Z)) : list (list Z) :=
  map sans_doublons liste.

(** [list(chain( *x))] *)
Definition aplatir (x : list (Z * Z)) : list Z :=
  flat_map (fun '(deb, fin) => [deb; fin]) x.

Inductive machine := DEB | FOR | DEG.

(** [Series.apply] of a computation that may raise or not terminate. *)
Fixpoint apply_all {A B} (f : A -> option (res B)) (l : list A) : option (res (list B)) :=
  match l with
  | [] => Some (Ok [])
  | x :: l' =>
      match f x with
      | None => None
      | Some (Err e) => Some (Err e)
      | Some (Ok y) =>
          match apply_all f l' with
          | None => None
          | Some (Err e) => Some (Err e)
          | Some (Ok ys) => Some (Ok (y :: ys))
          end
      end
  end.

(**
<<
df_machines = pd.read_excel(file, sheet_name=Feuilles.MACHINES)
Indisponibilites_machines = df_machines[INDISPONIBILITE_MINUTES] = \
    df_machines[INDISPONIBILITE].astype(str).apply(
        lambda x: convertir_en_minutes(x, file, id_file))
listes_plates = Indisponibilites_machines.apply(lambda x: list(chain( *x)))
Limites_machines = [liste for i, liste in enumerate(listes_plates)]
Limites_machines = traitement_doublons(Limites_machines)
return {Machines.DEB: Limites_machines[0], Machines.FOR: Limites_machines[1],
        Machines.DEG: Limites_machines[2]}
>> *)
Definition creation_limites_machines (fuel : nat) (fs : fsys) (file : string)
    (id_file : Z) : option (res (list (machine * list Z))) :=
  match fs file with
  | None => Some (Err FileNotFoundError)
  | Some wb =>
      match apply_all (fun x => convertir_en_minutes fuel x fs file id_file)
              (machines_indisponibilite wb) with
      | None => None
      | Some (Err e) => Some (Err e)
      | Some (Ok indisp) =>
          match traitement_doublons (map aplatir indisp) with
          | l0 :: l1 :: l2 :: _ => Some (Ok [(DEB, l0); (FOR, l1); (DEG, l2)])
          | _ => Some (Err IndexError)
          end
      end
  end.

(** ** [init_dict_correspondance] *)

(** A row of the correspondence sheet after [df_correspondance.astype(str)]. *)
Record correspondance := mkcorr {
  n_train_arrivee : string; date_arrivee : string;
  n_train_depart : string; date_depart : string }.

Definition digits_nat (ds : list ascii) : nat := Z.to_nat (digits_value ds).


Definition is_leap (y : nat) : bool :=
  (Nat.eqb (y mod 4) 0 && negb (Nat.eqb (y mod 100) 0)) || Nat.eqb (y mod 400) 0.

Definition days_in_month (y m : nat) : nat :=
  match m with
  | 2%nat => if is_leap y then 29%nat else 28%nat
  | 4%nat | 6%nat | 9%nat | 11%nat => 30%nat
  | _ => 31%nat
  end.

(** Dates a nanosecond [Timestamp] can hold at midnight:
    from 1677-09-22 to 2262-04-11. *)
Definition in_timestamp_range (y m d : nat) : bool :=
  let key := Z.of_nat y * 10000 + Z.of_nat m * 100 + Z.of_nat d in
  (16770922 <=? key) && (key <=? 22620411).

(** [%d]: [3[01]|[12]\d|0[1-9]|[1-9]| [1-9]]; as a [/] follows, the longest
    alternative that leaves a [/] is the one the regex engine keeps. *)
Definition parse_jour (l : list ascii) : option (nat * list ascii) :=
  match l with
  | " "%char :: c :: r =>
      if is_digit c && negb (Ascii.eqb c "0") then Some (digits_nat [c], r) else None
  | _ =>
      let* (ds, r) := digits12 l in
      let v := digits_nat ds in
      if ((1 <=? v) && (v <=? 31))%nat then Some (v, r) else None
  end.

(** [%m]: [1[0-2]|0[1-9]|[1-9]]. *)
Definition parse_mois (l : list ascii) : option (nat * list ascii) :=
  let* (ds, r) := digits12 l in
  let v := digits_nat ds in
  if ((1 <=? v) && (v <=? 12))%nat then Some (v, r) else None.

(** [%Y]: [\d\d\d\d]. *)
Definition parse_annee (l : list ascii) : option (nat * list ascii) :=
  match l with
  | a :: b :: c :: d :: r =>
      if is_digit a && is_digit b && is_digit c && is_digit d
      then Some (digits_nat [a; b; c; d], r) else None
  | _ => None
  end.

Definition two_digits (n : nat) : string :=
  String (ascii_of_nat (48 + n / 10)) (String (ascii_of_nat (48 + n mod 10)) EmptyString).

(** [pd.to_datetime(x, format='%d/%m/%Y', errors='coerce').dt.strftime('%d')]
    on one cell: the whole text must match the format and name a valid
    date; otherwise [NaT], whose [strftime] is NaN ([None]). *)
Definition jour_de (date : string) : option string :=
  let* (j, r1) := parse_jour (list_ascii_of_string date) in
  let* r2 := expect "/" r1 in
  let* (m, r3) := parse_mois r2 in
  let* r4 := expect "/" r3 in
  let* (y, r5) := parse_annee r4 in
  match r5 with
  | [] => if (j <=? days_in_month y m)%nat && in_timestamp_range y m j
          then Some (two_digits j) else None
  | _ => None
  end.

(** [input_df[N_TRAIN] + '_' + <day>]: NaN propagates through [+].  The NaN
    cells of one column are the same [np.nan] object, so they form a single
    dictionary key; [None] stands for it. *)
Definition train_id (numero date : string) : option string :=
  match jour_de date with
  | Some jj => Some (String.append numero (String.append "_" jj))
  | None => None
  end.

Definition id_train_depart (r : correspondance) : option string :=
  train_id (n_train_depart r) (date_depart r).

Definition id_train_arrivee (r : correspondance) : option string :=
  train_id (n_train_arrivee r) (date_arrivee r).

Abbreviation dict_corr := (gmap (option string) (list (option string))).

(** [d[departure_train_id].append(arrival_train_ids)] *)
Fixpoint ajouter_arrivees (d : dict_corr) (l : list (option string * option string))
    : res dict_corr :=
  match l with
  | [] => Ok d
  | (dep, arr) :: l' =>
      match d !! dep with
      | Some v => ajouter_arrivees (<[dep := v ++ [arr]]> d) l'
      | None => Err KeyError
      end
  end.

(**
<<
d = {}
for departure_train_id in input_df[ID_TRAIN_DEPART]:
    d[departure_train_id] = []
for departure_train_id, arrival_train_ids in zip(input_df[ID_TRAIN_DEPART],
                                                 input_df[ID_TRAIN_ARRIVEE]):
    d[departure_train_id].append(arrival_train_ids)
return d
>> *)
Definition init_dict_correspondance (df_correspondance : list correspondance)
    : res dict_corr :=
  let deps := map id_train_depart df_correspondance in
  let arrs := map id_train_arrivee df_correspondance in
  let d := fold_left (fun d k => <[k := []]> d) deps (∅ : dict_corr) in
  ajouter_arrivees d (combine deps arrs).

(** [d[k]] *)
Definition py_getitem (d : dict_corr) (k : option string) : res (list (option string)) :=
  match d !! k with Some v => Ok v | None => Err KeyError end.

(** A one-row correspondence table: arrival train 4412 of 1 May 2023
    feeds departure train 5120 of 2 May 2023. *)
Definition ex_correspondance : list correspondance :=
  [mkcorr "4412" "01/05/2023" "5120" "02/05/2023"].

Definition dict_of (r : res dict_corr) : dict_corr :=
  match r with Ok d => d | Err _ => ∅ end.

(** The arrival trains listed against the departure train [k], in table
    order; [None] when [k] heads no row. *)
Definition arrivees_de (k : option string) (df_correspondance : list correspondance)
    : option (list (option string)) :=
  match List.filter (fun r => bool_decide (id_train_depart r = k)) df_correspondance with
  | [] => None
  | rs => Some (map id_train_arrivee rs)
  end.

(** ** [init_t_a] and [init_t_d] *)

(** Days from 1970-01-01 to the proleptic Gregorian date [y-m-d]. *)
Definition days_from_civil (y m d : Z) : Z :=
  let y' := if m <=? 2 then y - 1 else y in
  let era := y' / 400 in
  let yoe := y' - era * 400 in
  let doy := (153 * ((m + 9) mod 12) + 2) / 5 + d - 1 in
  let doe := yoe * 365 + yoe / 4 - yoe / 100 + doy in
  era * 146097 + doe - 719468.

(** [Constantes.BASE_TIME = pd.Timestamp('2022-08-08 00:00')] *)
Definition BASE_TIME : nat * nat * nat := (2022, 8, 8)%nat.

Definition days_of (date : nat * nat * nat) : Z :=
  let '(y, m, d) := date in days_from_civil (Z.of_nat y) (Z.of_nat m) (Z.of_nat d).

(** [(date_arr - Constantes.BASE_TIME).days] for a date at midnight. *)
Definition days_since_ref (date : nat * nat * nat) : Z := days_of date - days_of BASE_TIME.

(** A row of a train-path sheet as [init_t_a] ([init_t_d]) reads it: the
    train number [SILLON_NUM_TRAIN] (as an f-string formats it), the day
    [SILLON_JARR] ([SILLON_JDEP]) converted by [read_sillon], and the hour
    cell [SILLON_HARR] ([SILLON_HDEP]). *)
Record sillon := mksillon {
  num_train : string; jour : option (nat * nat * nat); heure : pyval }.

(** [f"{train_id}_{date_arr.strftime('%d')}"] *)
Definition train_id_unique (train_id : string) (date : nat * nat * nat) : string :=
  let '(_, _, d) := date in String.append train_id (String.append "_" (two_digits d)).

(** The loop of [init_t_a] and [init_t_d] ([print_bool] only prints):
<<
t_a = {}
for index, row in df_sillons_arr.iterrows():
    train_id = row[Colonnes.SILLON_NUM_TRAIN]
    date_arr = row[Colonnes.SILLON_JARR]
    heure_arr = convert_hour_to_minutes(row[Colonnes.SILLON_HARR])
    if pd.notna(date_arr) and heure_arr is not None:
        days_since_ref = (date_arr - Constantes.BASE_TIME).days
        minutes_since_ref = days_since_ref * 24 * 60 + heure_arr
        train_id_unique = f"{train_id}_{date_arr.strftime('%d')}"
        t_a[train_id_unique] = minutes_since_ref
return t_a
>> *)
Fixpoint init_t_rows (t : gmap string Z) (rows : list sillon) : res (gmap string Z) :=
  match rows with
  | [] => Ok t
  | row :: rows' =>
      let? heure_min := convert_hour_to_minutes (heure row) in
      match jour row, heure_min with
      | Some date, Some h =>
          init_t_rows (<[train_id_unique (num_train row) date :=
                          days_since_ref date * 1440 + h]> t) rows'
      | _, _ => init_t_rows t rows'
      end
  end.

Definition init_t_a (df_sillons_arr : list sillon) : res (gmap string Z) :=
  init_t_rows ∅ df_sillons_arr.

Definition init_t_d (df_sillons_dep : list sillon) : res (gmap string Z) :=
  init_t_rows ∅ df_sillons_dep.

(** The entry a row gives to [t_a] ([t_d]), if any. *)
Definition row_entry (row : sillon) : option (string * Z) :=
  match jour row, convert_hour_to_minutes (heure row) with
  | Some date, Ok (Some h) => Some (train_id_unique (num_train row) date,
                                    days_since_ref date * 1440 + h)
  | _, _ => None
  end.

(** ** [creation_limites_chantiers] *)

Module Chantiers.
Inductive t := REC | FOR | DEP.
End Chantiers.

(** An instance file with its 'Chantiers' sheet: the [INDISPONIBILITE]
    column after [.astype(str)], one row per yard. *)
Record classeur := mkclasseur {
  feuilles : workbook;
  chantiers_indisponibilite : list string }.

Definition fsys_classeurs := string -> option classeur.

Definition sillons_fs (fs : fsys_classeurs) : fsys := fun f => option_map feuilles (fs f).

(**
<<
df_chantiers = pd.read_excel(file, sheet_name=Feuilles.CHANTIERS)
df_chantiers[INDISPONIBILITE_MINUTES] = indisponibilités_chantiers = \
    df_chantiers[INDISPONIBILITE].astype(str).apply(
        lambda x: convertir_en_minutes(x, file, id_file))
listes_plates_chantiers = indisponibilités_chantiers.apply(lambda x: list(chain( *x)))
limites_chantiers = []
for i, liste in enumerate(listes_plates_chantiers):
    limites_chantiers.append(liste)
limites_chantiers = traitement_doublons(limites_chantiers)
return {Chantiers.REC: limites_chantiers[0], Chantiers.FOR: limites_chantiers[1],
        Chantiers.DEP: limites_chantiers[2]}
>> *)
Definition creation_limites_chantiers (fuel : nat) (fs : fsys_classeurs) (file : string)
    (id_file : Z) : option (res (list (Chantiers.t * list Z))) :=
  match fs file with
  | None => Some (Err FileNotFoundError)
  | Some c =>
      match apply_all (fun x => convertir_en_minutes fuel x (sillons_fs fs) file id_file)
              (chantiers_indisponibilite c) with
      | None => None
      | Some (Err e) => Some (Err e)
      | Some (Ok indisp) =>
          match traitement_doublons (map aplatir indisp) with
          | l0 :: l1 :: l2 :: _ =>
              Some (Ok [(Chantiers.REC, l0); (Chantiers.FOR, l1); (Chantiers.DEP, l2)])
          | _ => Some (Err IndexError)
          end
      end
  end.

(** ** The text of an unavailability window

    [(jour, hh:mm-hh:mm)] as the pattern of [convertir_en_minutes] reads it:
    [g1] the day, [sp] the blanks after the comma, [g2]..[g5] the hours and
    minutes. *)
Definition window_text (g : groups) (sp : list ascii) : list ascii :=
  "("%char :: g1 g ++ ","%char :: sp ++ g2 g ++ ":"%char :: g3 g ++ "-"%char :: g4 g
    ++ ":"%char :: g5 g ++ [")"%char].

Definition all_digits (l : list ascii) : bool := forallb is_digit l.

(** Groups the pattern can produce: [\d+], [\d{1,2}], [\d{2}], [\d{1,2}],
    [\d{2}]. *)
Definition groups_ok (g : groups) : bool :=
  all_digits (g1 g) && (1 <=? length (g1 g))%nat &&
  all_digits (g2 g) && ((1 <=? length (g2 g)) && (length (g2 g) <=? 2))%nat &&
  all_digits (g3 g) && (length (g3 g) =? 2)%nat &&
  all_digits (g4 g) && ((1 <=? length (g4 g)) && (length (g4 g) <=? 2))%nat &&
  all_digits (g5 g) && (length (g5 g) =? 2)%nat.

Definition no_paren (l : list ascii) : bool := forallb (fun c => negb (Ascii.eqb c "(")) l.

(** The window in minutes that the formulas of [convertir_en_minutes] give
    for digit groups. *)
Definition window_minutes (g : groups) : Z * Z :=
  ((digits_value (g1 g) - 1) * 1440 + digits_value (g2 g) * 60 + digits_value (g3 g),
   (digits_value (g1 g) - 1) * 1440 + digits_value (g4 g) * 60 + digits_value (g5 g)).

(** ** Reading a flat list of limits *)

(** Consecutive pairs [[l0, l1], [l2, l3], ...] of a flat list of limits. *)
Fixpoint pairs_of (l : list Z) : list (Z * Z) :=
  match l with
  | a :: b :: r => (a, b) :: pairs_of r
  | _ => []
  end.

(** Minute [x] lies in one of the windows [[deb, fin)]. *)
Definition covers (ws : list (Z * Z)) (x : Z) : Prop :=
  exists deb fin, In (deb, fin) ws /\ deb <= x < fin.

(** Non-empty windows listed in time order, each ending no later than the
    next starts. *)
Fixpoint windows_sorted (ws : list (Z * Z)) : Prop :=
  match ws with
  | [] => True
  | (a, b) :: r =>
      a < b /\ match r with [] => True | (c, _) :: _ => b <= c end /\ windows_sorted r
  end.

Fixpoint increasing (l : list Z) : Prop :=
  match l with
  | x :: ((y :: _) as r) => x < y /\ increasing r
  | _ => True
  end.

(** ** Reading [convertir_en_minutes]

    With [e] the end of the last window listed and a horizon of [h]
    seconds, the loop stops at the first week [k] with
    [e + k * 10080 > h / 60]; [semaines_K e h] is that week. *)
Definition semaines_K (e h : Z) : Z :=
  if h <? 60 * e then 0 else (h - 60 * e) / (60 * semaine_minutes) + 1.

(** Weeks [0 .. K] of every window, week by week. *)
Definition replique (plages : list (Z * Z)) (K : Z) : list (Z * Z) :=
  flat_map (fun i => shift_week (Z.of_nat i) plages) (seq 0 (Z.to_nat K + 1)).

(** An instance file: one departure 100 minutes after the origin of file 0,
    and three machine rows. *)
Definition ex_workbook : workbook :=
  mkworkbook [] [1682899200 + 6000]
    ["(2, 00:00-01:00)(1, 00:00-01:00)"; "(1, 10:00-09:00)"; "nan"].

Definition ex_fs : fsys := fun f =>
  if String.eqb f "instance.xlsx" then Some ex_workbook else None.

(** What the loop returns from week [w] on, after [acc]: weeks [w .. K],
    with [K] given by the latest departure [fold_left Z.max ds d] and the
    origin [b]. *)
Definition cible (plages : list (Z * Z)) (d : Z) (ds : list Z) (b : Z) (w : Z)
    (acc : list (Z * Z)) : list (Z * Z) :=
  let K := semaines_K (snd (List.last plages (0, 0))) (fold_left Z.max ds d - b) in
  acc ++ flat_map (fun i => shift_week (w + Z.of_nat i) plages) (seq 0 (Z.to_nat (K - w) + 1)).

Definition plages_ok (r : res (list (Z * Z))) : list (Z * Z) :=
  match r with Ok l => l | Err _ => [] end.

Definition limites_of (r : option (res (list (machine * list Z))))
    : res (list (machine * list Z)) :=
  match r with Some x => x | None => Err TypeError end.

(** ** Statements about the code above *)

(** A window written as the pattern reads it: text [sep] with no
    parenthesis before it, digit groups the pattern can produce (a day of at
    most 4300 digits, the limit of [int]) and blanks [sp] after the comma. *)
Definition window_item_ok (it : list ascii * groups * list ascii) : Prop :=
  let '(sep, g, sp) := it in
  no_paren sep = true /\ groups_ok g = true /\ forallb py_isspace sp = true /\
  (length (g1 g) <= 4300)%nat.

(** The groups of [(2, 8:30-9:05)]. *)
Definition ex_groups : groups := mkgroups ["2"%char] ["8"%char] ["3"%char; "0"%char] ["9"%char] ["0"%char; "5"%char].

(** [ex_workbook] with a 'Chantiers' sheet of rows [rows]. *)
Definition ex_classeurs (rows : list string) : fsys_classeurs := fun f =>
  if String.eqb f "instance.xlsx" then Some (mkclasseur ex_workbook rows) else None.

(** One row of [init_t_a]: insert its entry, if any. *)
Definition t_step (t : gmap string Z) (row : sillon) : gmap string Z :=
  match row_entry row with Some (k, v) => <[k := v]> t | None => t end.


End Utils1.

(* ------------------------------------------------------------------ *)
Module Utils.

(** [init_model] and [init_contr] of [code/module/utils.py]: their bodies
    are empty, they return [None] without touching any state (the state of
    the solver session, of whatever type, is passed through unchanged).
<<
def init_model():
    pass

def init_contr():
    pass
>> *)
Definition init_model {State : Type} (st : State) : Utils1.pyval * State :=
  (Utils1.VNone, st).

Definition init_contr {State : Type} (st : State) : Utils1.pyval * State :=
  (Utils1.VNone, st).

(** [get_link_id(arrival_train_id, departure_train_ids)]:
<<
def get_link_id(arrival_train_id, departure_train_ids):
    return f"{arrival_train_id} {departure_train_ids}"
>> *)
Definition get_link_id (arrival_train_id departure_train_ids : string) : string :=
  String.append arrival_train_id (String.append " " departure_train_ids).

(** No blank in an identifier. *)
Fixpoint no_space (s : string) : bool :=
  match s with
  | EmptyString => true
  | String c s' => negb (Ascii.eqb c " ") && no_space s'
  end.

End Utils.

(* ------------------------------------------------------------------ *)
Module NotebookFacts.
Import Notebook.

(** ** Commands only append constraints *)

Lemma cmd_seq_inv c1 c2 s s'' :
  cmd_seq c1 c2 s = Ok s'' -> exists s', c1 s = Ok s' /\ c2 s' = Ok s''.
Proof. unfold cmd_seq. destruct (c1 s); [eauto | discriminate]. Qed.

Lemma addConstr_grows c : grows (addConstr c).
Proof. intros s s' H x Hx. injection H as <-. apply in_or_app; auto. Qed.

Lemma addConstr_posts c : posts (addConstr c) c.
Proof. intros s s' H. injection H as <-. apply in_or_app; simpl; auto. Qed.

Lemma cmd_seq_grows c1 c2 : grows c1 -> grows c2 -> grows (cmd_seq c1 c2).
Proof.
  intros H1 H2 s s'' H x Hx. destruct (cmd_seq_inv _ _ _ _ H) as (s' & E1 & E2).
  eauto.
Qed.

Lemma cmd_seq_posts_l c1 c2 x : posts c1 x -> grows c2 -> posts (cmd_seq c1 c2) x.
Proof.
  intros H1 H2 s s'' H. destruct (cmd_seq_inv _ _ _ _ H) as (s' & E1 & E2). eauto.
Qed.

Lemma cmd_seq_posts_r c1 c2 x : posts c2 x -> posts (cmd_seq c1 c2) x.
Proof.
  intros H2 s s'' H. destruct (cmd_seq_inv _ _ _ _ H) as (s' & E1 & E2). eauto.
Qed.

Lemma for_each_grows l body : (forall i, grows (body i)) -> grows (for_each l body).
Proof.
  intros Hb. induction l as [|i l IH]; simpl.
  - intros s s' H x Hx. injection H as <-. exact Hx.
  - apply cmd_seq_grows; auto.
Qed.

Lemma for_each_posts l body i x :
  In i l -> posts (body i) x -> (forall j, grows (body j)) -> posts (for_each l body) x.
Proof.
  intros Hi Hp Hg. induction l as [|j l IH]; simpl in *; [contradiction|].
  destruct Hi as [<- | Hi].
  - apply cmd_seq_posts_l; auto using for_each_grows.
  - apply cmd_seq_posts_r; auto.
Qed.

Lemma add_all_grows cs : grows (add_all cs).
Proof.
  induction cs as [|c cs IH]; simpl.
  - intros s s' H x Hx. injection H as <-. exact Hx.
  - apply cmd_seq_grows; auto using addConstr_grows.
Qed.

Lemma add_all_posts cs x : In x cs -> posts (add_all cs) x.
Proof.
  induction cs as [|c cs IH]; simpl; [contradiction|]. intros [<- | Hx].
  - apply cmd_seq_posts_l; auto using addConstr_posts, add_all_grows.
  - apply cmd_seq_posts_r; auto.
Qed.

Lemma feasible_sat a model c : feasible a model -> In c model -> satb a c = true.
Proof. intros [_ H] Hc. rewrite forallb_forall in H. auto. Qed.

Lemma in_range n k : In k (range n) <-> (k < n)%nat.
Proof. unfold range. rewrite in_seq. lia. Qed.

Lemma in_range2 a b k : In k (range2 a b) <-> (a <= k < b)%nat.
Proof. unfold range2. rewrite in_seq. lia. Qed.

(** ** The ordering cell *)

Lemma ordering_body_grows t_a t_d n :
  grows (fun s =>
    let? ta := py_index t_a n in
    let? s1 := addConstr (CLin (t_ 0 n) GE (EConst ta)) s in
    let? td := py_index t_d n in
    let? s2 := addConstr (CLin (EAdd (t_ (M-1) n) (T_ (M-1))) LE (EConst td)) s1 in
    for_each (range (M-1)) (fun m =>
      addConstr (CLin (EAdd (t_ m n) (T_ m)) LE (t_ (m+1) n))) s2).
Proof.
  intros s s' H x Hx.
  destruct (py_index t_a n) as [ta|e]; cbn [res_bind addConstr] in H; [|discriminate].
  destruct (py_index t_d n) as [td|e]; cbn [res_bind addConstr] in H; [|discriminate].
  eapply (for_each_grows _ _ (fun m => addConstr_grows _)); [exact H|].
  apply in_or_app; left. apply in_or_app; left. exact Hx.
Qed.

Lemma ordering_body_posts t_a t_d n s s' :
  (let? ta := py_index t_a n in
   let? s1 := addConstr (CLin (t_ 0 n) GE (EConst ta)) s in
   let? td := py_index t_d n in
   let? s2 := addConstr (CLin (EAdd (t_ (M-1) n) (T_ (M-1))) LE (EConst td)) s1 in
   for_each (range (M-1)) (fun m =>
     addConstr (CLin (EAdd (t_ m n) (T_ m)) LE (t_ (m+1) n))) s2) = Ok s' ->
  exists ta td, py_index t_a n = Ok ta /\ py_index t_d n = Ok td /\
    In (CLin (t_ 0 n) GE (EConst ta)) s' /\
    In (CLin (EAdd (t_ (M-1) n) (T_ (M-1))) LE (EConst td)) s' /\
    (forall m, (m < M - 1)%nat -> In (CLin (EAdd (t_ m n) (T_ m)) LE (t_ (m+1) n)) s').
Proof.
  intros H.
  destruct (py_index t_a n) as [ta|e]; cbn [res_bind addConstr] in H; [|discriminate].
  destruct (py_index t_d n) as [td|e]; cbn [res_bind addConstr] in H; [|discriminate].
  exists ta, td. split; [reflexivity|]. split; [reflexivity|].
  pose proof (for_each_grows (range (M-1)) _ (fun m => addConstr_grows
    (CLin (EAdd (t_ m n) (T_ m)) LE (t_ (m+1) n)))) as G.
  split; [|split].
  - eapply G; [exact H|]. apply in_or_app; left. apply in_or_app; right; simpl; auto.
  - eapply G; [exact H|]. apply in_or_app; right; simpl; auto.
  - intros m Hm.
    refine (for_each_posts (range (M-1)) _ m _ _ _ _ _ _ H).
    + apply in_range. exact Hm.
    + apply addConstr_posts.
    + intros j. apply addConstr_grows.
Qed.

Lemma cell_ordering_posts t_a t_d s s' n :
  cell_ordering t_a t_d s = Ok s' -> (n < N)%nat ->
  exists ta td, py_index t_a n = Ok ta /\ py_index t_d n = Ok td /\
    In (CLin (t_ 0 n) GE (EConst ta)) s' /\
    In (CLin (EAdd (t_ (M-1) n) (T_ (M-1))) LE (EConst td)) s' /\
    (forall m, (m < M - 1)%nat -> In (CLin (EAdd (t_ m n) (T_ m)) LE (t_ (m+1) n)) s').
Proof.
  intros H Hn. apply in_range in Hn. unfold cell_ordering in H.
  revert s H Hn. generalize (range N) as l.
  induction l as [|j l IH]; intros s H Hi'; [contradiction|].
  cbn [for_each] in H. destruct (cmd_seq_inv _ _ _ _ H) as (s1 & E1 & E2).
  destruct Hi' as [<- | Hi'].
  - destruct (ordering_body_posts _ _ _ _ _ E1) as (ta & td & Ha & Hd & P1 & P2 & P3).
    pose proof (for_each_grows l _ (ordering_body_grows t_a t_d)) as G.
    exists ta, td. repeat split; auto.
    + eapply G; eauto.
    + eapply G; eauto.
    + intros m Hm. eapply G; eauto.
  - apply (IH s1 E2 Hi').
Qed.

(** ** Reading satisfied constraints *)

Lemma sat_ind a b l sn r :
  satb a (CInd b true l sn r) = true -> a b = 1 -> holds sn (eval a l) (eval a r) = true.
Proof. simpl. intros H E. rewrite E in H. exact H. Qed.

Lemma holds_le x y : holds LE x y = true -> x <= y.
Proof. simpl. apply Z.leb_le. Qed.

Lemma holds_ge x y : holds GE x y = true -> y <= x.
Proof. simpl. apply Z.leb_le. Qed.

Lemma holds_eq x y : holds EQ x y = true -> x = y.
Proof. simpl. apply Z.eqb_eq. Qed.

Lemma cell_ordering_none s : cell_ordering None None s = Err TypeError.
Proof. reflexivity. Qed.

(** C3: in every feasible point of the model produced by the ordering cell,
    each task [m] of a wagon [n] ends before task [m+1] of the same wagon
    starts: [t[m,n] + T[m] <= t[m+1,n]]. *)
Theorem ordering_intra_job (t_a t_d : option (list Z)) (s s' : list constr)
    (a : assignment) :
  cell_ordering t_a t_d s = Ok s' -> feasible a s' ->
  forall n m, (n < N)%nat -> (m < M - 1)%nat ->
  a (VT m n) + T m <= a (VT (S m) n).
Proof.
  intros Hc Hf n m Hn Hm.
  destruct (cell_ordering_posts _ _ _ _ n Hc Hn) as (ta & td & _ & _ & _ & _ & P).
  pose proof (feasible_sat _ _ _ Hf (P m Hm)) as H. simpl in H.
  replace (S m) with (m + 1)%nat by lia. apply Z.leb_le. exact H.
Qed.

Lemma ordering_intra_job_witness :
  cell_ordering (Some ex_release) (Some ex_due) []
    = Ok (model_of (cell_ordering (Some ex_release) (Some ex_due) [])) /\
  feasible ex_ordering_sol (model_of (cell_ordering (Some ex_release) (Some ex_due) [])) /\
  ex_ordering_sol (VT 4 2) + T 4 <= ex_ordering_sol (VT 5 2).
Proof.
  assert (H1 : cell_ordering (Some ex_release) (Some ex_due) []
    = Ok (model_of (cell_ordering (Some ex_release) (Some ex_due) [])))
    by (vm_compute; reflexivity).
  assert (H2 : feasible ex_ordering_sol
                 (model_of (cell_ordering (Some ex_release) (Some ex_due) []))).
  { split; [intros []; simpl; lia | vm_compute; reflexivity]. }
  split; [exact H1|]. split; [exact H2|].
  apply (ordering_intra_job _ _ _ _ _ H1 H2 2 4); vm_compute; lia.
Defined.

(** C4: in every feasible point of the model produced by the ordering cell,
    for every wagon [n] the arrival and departure data [t_a[n]] and [t_d[n]]
    exist, the first task starts no earlier than [t_a[n]], and the last task
    ends no later than [t_d[n]]: [t[M-1,n] + T[M-1] <= t_d[n]]. *)
Theorem ordering_release_due (t_a t_d : option (list Z)) (s s' : list constr)
    (a : assignment) :
  cell_ordering t_a t_d s = Ok s' -> feasible a s' ->
  forall n, (n < N)%nat ->
  exists ta td, py_index t_a n = Ok ta /\ py_index t_d n = Ok td /\
    ta <= a (VT 0 n) /\ a (VT (M-1) n) + T (M-1) <= td.
Proof.
  intros Hc Hf n Hn.
  destruct (cell_ordering_posts _ _ _ _ n Hc Hn) as (ta & td & Ha & Hd & P1 & P2 & _).
  exists ta, td. split; [exact Ha|]. split; [exact Hd|].
  pose proof (feasible_sat _ _ _ Hf P1) as H1. pose proof (feasible_sat _ _ _ Hf P2) as H2.
  simpl in H1, H2. split; apply Z.leb_le; assumption.
Qed.

Lemma ordering_release_due_witness :
  cell_ordering (Some ex_release) (Some ex_due) []
    = Ok (model_of (cell_ordering (Some ex_release) (Some ex_due) [])) /\
  feasible ex_ordering_sol (model_of (cell_ordering (Some ex_release) (Some ex_due) [])) /\
  exists ta td, py_index (Some ex_release) 3 = Ok ta /\ py_index (Some ex_due) 3 = Ok td /\
    ta <= ex_ordering_sol (VT 0 3) /\ ex_ordering_sol (VT (M-1) 3) + T (M-1) <= td.
Proof.
  assert (H1 : cell_ordering (Some ex_release) (Some ex_due) []
    = Ok (model_of (cell_ordering (Some ex_release) (Some ex_due) [])))
    by (vm_compute; reflexivity).
  assert (H2 : feasible ex_ordering_sol
                 (model_of (cell_ordering (Some ex_release) (Some ex_due) []))).
  { split; [intros []; simpl; lia | vm_compute; reflexivity]. }
  split; [exact H1|]. split; [exact H2|].
  apply (ordering_release_due _ _ _ _ _ H1 H2 3); vm_compute; lia.
Defined.

(** ** The mutual-exclusion cell *)

Lemma cell_exclusion_posts m n1 n2 c :
  In m machines -> (n1 < n2)%nat -> (n2 < N)%nat ->
  In c (exclusion_constrs m n1 n2) -> posts cell_exclusion c.
Proof.
  intros Hm H12 Hn2 Hc. unfold cell_exclusion.
  apply (for_each_posts _ _ m); [exact Hm| |].
  - apply (for_each_posts _ _ n1); [apply in_range; unfold N in *; lia| |].
    + apply (for_each_posts _ _ n2); [apply in_range2; lia| |].
      * apply add_all_posts. exact Hc.
      * intros j. apply add_all_grows.
    + intros j. apply for_each_grows. intros k. apply add_all_grows.
  - intros j. apply for_each_grows. intros k.
    apply for_each_grows. intros l. apply add_all_grows.
Qed.

Lemma sat_ind_le a b l r :
  satb a (CInd b true l LE r) = true -> a b = 1 -> eval a l <= eval a r.
Proof. intros H E. apply holds_le. exact (sat_ind _ _ _ _ _ H E). Qed.

Lemma sat_ind_ge a b l r :
  satb a (CInd b true l GE r) = true -> a b = 1 -> eval a r <= eval a l.
Proof. intros H E. apply holds_ge. exact (sat_ind _ _ _ _ _ H E). Qed.

Lemma sat_lin_ge a l r : satb a (CLin l GE r) = true -> eval a r <= eval a l.
Proof. apply holds_ge. Qed.

Lemma sat_lin_eq a l r : satb a (CLin l EQ r) = true -> eval a l = eval a r.
Proof. apply holds_eq. Qed.

Lemma T_machines_pos m : In m machines -> 0 < T m.
Proof. intros [<-|[<-|[<-|[]]]]; reflexivity. Qed.

(** C2: on each machine [m] in [[2;4;5]], for every pair of wagons
    [n1 < n2 < N], a feasible point of the model of the exclusion cell sets
    exactly one of the two order binaries [delta_1[m,n1,n2,0..1]], and the two
    intervals [[t, t+T[m])] of task [m] on wagons [n1] and [n2] are disjoint. *)
Theorem exclusion_no_overlap (s s' : list constr) (a : assignment) :
  cell_exclusion s = Ok s' -> feasible a s' ->
  forall m n1 n2, In m machines -> (n1 < n2)%nat -> (n2 < N)%nat ->
  (a (VT m n1) + T m <= a (VT m n2) \/ a (VT m n2) + T m <= a (VT m n1)) /\
  a (VD1 m n1 n2 0) + a (VD1 m n1 n2 1) = 1.
Proof.
  intros Hc Hf m n1 n2 Hm H12 Hn2.
  assert (P : forall c, In c (exclusion_constrs m n1 n2) -> satb a c = true).
  { intros c Hin. apply (feasible_sat _ _ _ Hf).
    exact (cell_exclusion_posts m n1 n2 c Hm H12 Hn2 Hin s s' Hc). }
  pose proof (sat_ind_le _ _ _ _ (P _ (or_introl eq_refl))) as F0.
  pose proof (sat_ind_ge _ _ _ _ (P _ (or_intror (or_introl eq_refl)))) as F1.
  pose proof (sat_lin_ge _ _ _ (P _ (or_intror (or_intror (or_introl eq_refl))))) as F2.
  pose proof (proj1 Hf (VD1 m n1 n2 0)) as D0. pose proof (proj1 Hf (VD1 m n1 n2 1)) as D1.
  pose proof (T_machines_pos m Hm) as HT.
  simpl in F0, F1, F2, D0, D1. unfold T_, t_ in F0, F1. simpl in F0, F1.
  split; lia.
Qed.

Lemma exclusion_no_overlap_witness :
  cell_exclusion [] = Ok (model_of (cell_exclusion [])) /\
  feasible ex_exclusion_sol (model_of (cell_exclusion [])) /\
  (ex_exclusion_sol (VT 4 1) + T 4 <= ex_exclusion_sol (VT 4 3) \/
   ex_exclusion_sol (VT 4 3) + T 4 <= ex_exclusion_sol (VT 4 1)) /\
  ex_exclusion_sol (VD1 4 1 3 0) + ex_exclusion_sol (VD1 4 1 3 1) = 1.
Proof.
  assert (H1 : cell_exclusion [] = Ok (model_of (cell_exclusion [])))
    by (vm_compute; reflexivity).
  assert (H2 : feasible ex_exclusion_sol (model_of (cell_exclusion []))).
  { split; [intros [m n | m n1 n2 [|[|k]] | m n i]; simpl; lia
           | vm_compute; reflexivity]. }
  split; [exact H1|]. split; [exact H2|].
  apply (exclusion_no_overlap _ _ _ H1 H2 4 1 3); vm_compute; [right; left; reflexivity | lia | lia].
Defined.

(** ** The calendar cell *)

Lemma cell_calendar_posts m n c :
  In m calendar_tasks -> (n < N)%nat ->
  In c (calendar_constrs m n) -> posts cell_calendar c.
Proof.
  intros Hm Hn Hc. unfold cell_calendar.
  apply (for_each_posts _ _ m); [exact Hm| |].
  - apply (for_each_posts _ _ n); [apply in_range; exact Hn| |].
    + apply add_all_posts. exact Hc.
    + intros j. apply add_all_grows.
  - intros j. apply for_each_grows. intros k. apply add_all_grows.
Qed.

Lemma in_window_unique t d k k' :
  0 < d -> in_window t d k' = true -> in_window t d k = true -> k' = k.
Proof.
  intros Hd H1 H2.
  destruct k as [|[|[|[|[|k]]]]]; destruct k' as [|[|[|[|[|k']]]]];
    cbn [in_window Limites Limites_list nth map] in H1, H2;
    rewrite ?andb_true_iff, ?Z.leb_le in H1, H2;
    solve [reflexivity | discriminate | lia].
Qed.

Lemma prod_bin x y z :
  (x = 0 \/ x = 1) -> (y = 0 \/ y = 1) -> z = x * y -> z = 1 -> x = 1 /\ y = 1.
Proof. intros [-> | ->] [-> | ->]; lia. Qed.

Lemma nth_error_in_calendar m n i c :
  nth_error (calendar_constrs m n) i = Some c -> In c (calendar_constrs m n).
Proof. apply nth_error_In. Qed.

Lemma in_window_exactly t d k :
  0 < d -> in_window t d k = true ->
  exists k0, (k0 < 5)%nat /\ in_window t d k0 = true /\
    forall k', in_window t d k' = true -> k' = k0.
Proof.
  intros Hd Hk. exists k. split.
  - destruct k as [|[|[|[|[|k]]]]]; [lia..| discriminate].
  - split; [exact Hk|]. intros k' Hk'. exact (in_window_unique _ _ _ _ Hd Hk' Hk).
Qed.

Ltac in_window_by_lia :=
  cbn [in_window Limites Limites_list nth map];
  rewrite ?andb_true_iff, ?Z.leb_le; lia.

(** C1 (as the code does it): in every feasible point of the model of the
    calendar cell, for every task [m] in [[2;3;4;5]] and wagon [n < N], the
    interval [[t[m,n], t[m,n]+T[m])] lies in exactly one of the five open
    windows left by [Limites], and exactly one of the binaries
    [delta_2[m,n,0]], [delta_2[m,n,8]], [delta_2[m,n,9]], [delta_2[m,n,10]],
    [delta_2[m,n,7]] of the covering constraint is 1. *)
Theorem calendar_exactly_one_window (s s' : list constr) (a : assignment) :
  cell_calendar s = Ok s' -> feasible a s' ->
  forall m n, In m calendar_tasks -> (n < N)%nat ->
  (exists k, (k < 5)%nat /\ in_window (a (VT m n)) (T m) k = true /\
     forall k', in_window (a (VT m n)) (T m) k' = true -> k' = k) /\
  calendar_selectors a m n = 1.
Proof.
  intros Hc Hf m n Hm Hn.
  assert (Q : forall i c, nth_error (calendar_constrs m n) i = Some c -> satb a c = true).
  { intros i c E. apply (feasible_sat _ _ _ Hf).
    exact (cell_calendar_posts m n c Hm Hn (nth_error_in_calendar _ _ _ _ E) s s' Hc). }
  pose proof (sat_ind_le _ _ _ _ (Q 0%nat _ eq_refl)) as F0.
  pose proof (sat_ind_ge _ _ _ _ (Q 1%nat _ eq_refl)) as F1.
  pose proof (sat_ind_le _ _ _ _ (Q 2%nat _ eq_refl)) as F2.
  pose proof (sat_ind_ge _ _ _ _ (Q 3%nat _ eq_refl)) as F3.
  pose proof (sat_ind_le _ _ _ _ (Q 4%nat _ eq_refl)) as F4.
  pose proof (sat_ind_ge _ _ _ _ (Q 5%nat _ eq_refl)) as F5.
  pose proof (sat_ind_le _ _ _ _ (Q 6%nat _ eq_refl)) as F6.
  pose proof (sat_ind_ge _ _ _ _ (Q 7%nat _ eq_refl)) as F7.
  pose proof (sat_lin_eq _ _ _ (Q 8%nat _ eq_refl)) as F8.
  pose proof (sat_lin_eq _ _ _ (Q 9%nat _ eq_refl)) as F9.
  pose proof (sat_lin_eq _ _ _ (Q 10%nat _ eq_refl)) as F10.
  pose proof (sat_lin_ge _ _ _ (Q 11%nat _ eq_refl)) as F11.
  destruct Hf as [D _].
  pose proof (D (VD2 m n 0)) as D0. pose proof (D (VD2 m n 1)) as D1.
  pose proof (D (VD2 m n 2)) as D2. pose proof (D (VD2 m n 3)) as D3.
  pose proof (D (VD2 m n 4)) as D4. pose proof (D (VD2 m n 5)) as D5.
  pose proof (D (VD2 m n 6)) as D6. pose proof (D (VD2 m n 7)) as D7.
  pose proof (D (VD2 m n 8)) as D8. pose proof (D (VD2 m n 9)) as D9.
  pose proof (D (VD2 m n 10)) as D10.
  cbn [var_dom eval t_ T_ d2] in *.
  pose proof (prod_bin _ _ _ D1 D2 F8) as P8.
  pose proof (prod_bin _ _ _ D3 D4 F9) as P9.
  pose proof (prod_bin _ _ _ D5 D6 F10) as P10.
  clear F8 F9 F10 Q D Hc.
  assert (HT : 15 <= T m) by (destruct Hm as [<-|[<-|[<-|[<-|[]]]]]; cbv; discriminate).
  set (t := a (VT m n)) in *.
  cbn [Limites Limites_list nth map] in *.
  assert (W0 : a (VD2 m n 0) = 1 -> in_window t (T m) 0 = true).
  { intro E. specialize (F0 E). clear - F0 HT. in_window_by_lia. }
  assert (W8 : a (VD2 m n 8) = 1 -> in_window t (T m) 1 = true).
  { intro E. destruct (P8 E) as [E1 E2]. specialize (F1 E1). specialize (F2 E2).
    clear - F1 F2 HT. in_window_by_lia. }
  assert (W9 : a (VD2 m n 9) = 1 -> in_window t (T m) 2 = true).
  { intro E. destruct (P9 E) as [E1 E2]. specialize (F3 E1). specialize (F4 E2).
    clear - F3 F4 HT. in_window_by_lia. }
  assert (W10 : a (VD2 m n 10) = 1 -> in_window t (T m) 3 = true).
  { intro E. destruct (P10 E) as [E1 E2]. specialize (F5 E1). specialize (F6 E2).
    clear - F5 F6 HT. in_window_by_lia. }
  assert (W7 : a (VD2 m n 7) = 1 -> in_window t (T m) 4 = true).
  { intro E. specialize (F7 E). clear - F7 HT. in_window_by_lia. }
  assert (HT' : 0 < T m) by lia.
  clear F0 F1 F2 F3 F4 F5 F6 F7 P8 P9 P10 D1 D2 D3 D4 D5 D6 HT.
  unfold calendar_selectors.
  destruct D0 as [E0|E0], D8 as [E8|E8], D9 as [E9|E9], D10 as [E10|E10], D7 as [E7|E7];
    rewrite ?E0, ?E8, ?E9, ?E10, ?E7 in F11 |- *;
    repeat match goal with H : ?x = 1 -> _, E : ?x = 1 |- _ => specialize (H E) end;
    try (exfalso; lia);
    try (exfalso;
         match goal with
         | H1 : in_window t (T m) ?k1 = true, H2 : in_window t (T m) ?k2 = true |- _ =>
             pose proof (in_window_unique _ _ _ _ HT' H1 H2); discriminate
         end);
    (split; [|reflexivity]);
    match goal with H : in_window t (T m) ?k = true |- _ =>
      exact (in_window_exactly _ _ _ HT' H) end.
Qed.

Lemma calendar_exactly_one_window_witness :
  cell_calendar [] = Ok (model_of (cell_calendar [])) /\
  feasible ex_calendar_sol (model_of (cell_calendar [])) /\
  (exists k, (k < 5)%nat /\ in_window (ex_calendar_sol (VT 5 4)) (T 5) k = true /\
     forall k', in_window (ex_calendar_sol (VT 5 4)) (T 5) k' = true -> k' = k) /\
  calendar_selectors ex_calendar_sol 5 4 = 1.
Proof.
  assert (H1 : cell_calendar [] = Ok (model_of (cell_calendar [])))
    by (vm_compute; reflexivity).
  assert (H2 : feasible ex_calendar_sol (model_of (cell_calendar []))).
  { split; [intros [m n | m n1 n2 k | m n [|[|[|[|[|[|[|[|i]]]]]]]]];
    cbn [ex_calendar_sol var_dom Limites Limites_list nth map orb Nat.eqb]; lia
           | vm_compute; reflexivity]. }
  split; [exact H1|]. split; [exact H2|].
  apply (calendar_exactly_one_window _ _ _ H1 H2 5 4);
    vm_compute; [right; right; right; left; reflexivity | lia].
Defined.

(** C1 counterexample: the calendar cell does not post one selector per
    window constrained to sum to 1.  It posts eight indicator binaries
    [delta_2[m,n,0..7]], one per boundary of [Limites], and only a covering
    constraint [>= 1]; in this feasible point (every task at [Limites[7]],
    every "after [Limites[i]]" indicator set) the eight indicators of task 2
    on wagon 0 sum to 4. *)
Lemma calendar_selectors_counterexample :
  cell_calendar [] = Ok (model_of (cell_calendar [])) /\
  feasible ex_calendar_sol (model_of (cell_calendar [])) /\
  indicator_sum ex_calendar_sol 2 0 = 4.
Proof.
  split; [vm_compute; reflexivity|]. split; [|vm_compute; reflexivity].
  split; [intros [m n | m n1 n2 k | m n [|[|[|[|[|[|[|[|i]]]]]]]]];
    cbn [ex_calendar_sol var_dom Limites Limites_list nth map orb Nat.eqb]; lia
         | vm_compute; reflexivity].
Qed.

End NotebookFacts.

(* ------------------------------------------------------------------ *)
Module Utils1Facts.
Import Utils1.

(** ** [convert_hour_to_minutes] *)

Lemma py_int_res_err s e : py_int_res s = Err e -> e = ValueError.
Proof. unfold py_int_res. destruct (py_int s); congruence. Qed.

Lemma hour_try_err s e : hour_try s = Err e -> e = ValueError.
Proof.
  unfold hour_try. destruct (split_on _ _) as [|ph [|pm [|]]]; try congruence.
  unfold res_bind. destruct (py_int_res ph) eqn:E1; [|intros [= <-]; eauto using py_int_res_err].
  destruct (py_int_res pm) eqn:E2; [congruence|intros [= <-]; eauto using py_int_res_err].
Qed.

(** C10: [convert_hour_to_minutes] never raises: on every cell value it
    returns normally; it returns [None] on a missing value; and it returns
    [Some v] exactly when the cell is a [str] that [split(':')] cuts into
    two pieces both accepted by [int()], [v] being [60 * hours + minutes]
    (every other value, including a [str] that fails to parse, gives
    [None]). *)
Theorem convert_hour_to_minutes_total (x : pyval) :
  (exists r, convert_hour_to_minutes x = Ok r) /\
  (py_isna x = true -> convert_hour_to_minutes x = Ok None) /\
  (forall v, convert_hour_to_minutes x = Ok (Some v) <->
     exists s hs ms hours minutes, x = VStr s /\
       split_on ":" (list_ascii_of_string s) = [hs; ms] /\
       py_int hs = Some hours /\ py_int ms = Some minutes /\
       v = 60 * hours + minutes).
Proof.
  split; [|split].
  - unfold convert_hour_to_minutes.
    destruct x; cbn [py_isna py_isstr orb negb]; try (eexists; reflexivity).
    destruct (hour_try s) as [z|e] eqn:E; [eexists; reflexivity|].
    rewrite (hour_try_err _ _ E). eexists; reflexivity.
  - destruct x; intros H; try discriminate; reflexivity.
  - intros v. split.
    + unfold convert_hour_to_minutes.
      destruct x; cbn [py_isna py_isstr orb negb]; try discriminate.
      destruct (hour_try s) as [z|e] eqn:E;
        [|rewrite (hour_try_err _ _ E); discriminate].
      intros [= ->]. unfold hour_try, py_int_res in E.
      destruct (split_on _ _) as [|ph [|pm [|]]] eqn:Hs; try discriminate.
      destruct (py_int ph) as [h|] eqn:Hh; [|discriminate].
      destruct (py_int pm) as [m|] eqn:Hm; [|discriminate].
      simpl in E. injection E as <-.
      exists s, ph, pm, h, m. repeat split; auto. lia.
    + intros (s & hs & ms & h & m & -> & Hs & Hh & Hm & ->).
      unfold convert_hour_to_minutes, hour_try, py_int_res.
      cbn [py_isna py_isstr orb negb]. rewrite Hs, Hh, Hm. simpl.
      do 2 f_equal. lia.
Qed.

Lemma convert_hour_to_minutes_examples :
  convert_hour_to_minutes (VStr "08:30") = Ok (Some 510) /\
  convert_hour_to_minutes (VStr "8h30") = Ok None /\
  convert_hour_to_minutes VNaN = Ok None.
Proof. vm_compute. auto. Qed.

(** ** [init_dict_correspondance] *)

Lemma key_dec (k k' : option string) : {k = k'} + {k <> k'}.
Proof. apply (decide (k = k')). Defined.

Lemma fold_reset_lookup (ks : list (option string)) (d : dict_corr) k :
  fold_left (fun d k => <[k := []]> d) ks d !! k
  = if in_dec key_dec k ks then Some [] else d !! k.
Proof.
  revert d. induction ks as [|k0 ks IH]; intros d; cbn [fold_left]; [reflexivity|].
  rewrite IH.
  destruct (in_dec key_dec k ks) as [Hk|Hk];
    destruct (in_dec key_dec k (k0 :: ks)) as [Hk'|Hk'].
  - reflexivity.
  - exfalso. apply Hk'. right. exact Hk.
  - destruct (key_dec k0 k) as [<-|Hne].
    + apply lookup_insert_eq.
    + exfalso. destruct Hk' as [E|E]; [apply Hne; exact E | apply Hk; exact E].
  - destruct (key_dec k0 k) as [<-|Hne].
    + exfalso. apply Hk'. left. reflexivity.
    + rewrite lookup_insert_ne by exact Hne. reflexivity.
Qed.

Lemma ajouter_arrivees_spec (l : list (option string * option string)) (d : dict_corr) :
  (forall p, In p l -> is_Some (d !! fst p)) ->
  exists d', ajouter_arrivees d l = Ok d' /\
    forall k, d' !! k =
      option_map (fun v => v ++ map snd (List.filter (fun p => bool_decide (fst p = k)) l))
        (d !! k).
Proof.
  revert d. induction l as [|[dep arr] l IH]; intros d Hk.
  - exists d. split; [reflexivity|]. intros k. simpl.
    destruct (d !! k); simpl; [rewrite app_nil_r|]; reflexivity.
  - destruct (Hk (dep, arr) (or_introl eq_refl)) as [v Hv]. simpl in Hv.
    destruct (IH (<[dep := v ++ [arr]]> d)) as (d' & E & H').
    { intros p Hp. destruct (key_dec dep (fst p)) as [<-|Hne].
      - rewrite lookup_insert_eq. eauto.
      - rewrite lookup_insert_ne by exact Hne. apply Hk. right. exact Hp. }
    exists d'. split.
    + simpl. rewrite Hv. exact E.
    + intros k. rewrite H'. cbn [List.filter fst].
      destruct (key_dec dep k) as [<-|Hne].
      * rewrite lookup_insert_eq, Hv, bool_decide_true by reflexivity. simpl.
        rewrite <- app_assoc. reflexivity.
      * rewrite lookup_insert_ne by exact Hne.
        rewrite bool_decide_false by exact Hne. reflexivity.
Qed.

Lemma combine_map {A B C} (f : A -> B) (g : A -> C) (l : list A) :
  combine (map f l) (map g l) = map (fun x => (f x, g x)) l.
Proof. induction l as [|x l IH]; simpl; congruence. Qed.

Lemma filter_pairs (rows : list correspondance) k :
  map snd (List.filter (fun p => bool_decide (fst p = k))
             (map (fun r => (id_train_depart r, id_train_arrivee r)) rows))
  = map id_train_arrivee (List.filter (fun r => bool_decide (id_train_depart r = k)) rows).
Proof.
  induction rows as [|r rows IH]; simpl; [reflexivity|].
  destruct (bool_decide (id_train_depart r = k)); simpl; congruence.
Qed.

Lemma filter_absent (rows : list correspondance) k :
  (forall r, In r rows -> id_train_depart r <> k) ->
  List.filter (fun r => bool_decide (id_train_depart r = k)) rows = [].
Proof.
  induction rows as [|r rows IH]; intros H; simpl; [reflexivity|].
  rewrite bool_decide_false by (apply H; left; reflexivity).
  apply IH. intros r' Hr'. apply H. right. exact Hr'.
Qed.

Lemma filter_present (rows : list correspondance) k :
  In k (map id_train_depart rows) ->
  List.filter (fun r => bool_decide (id_train_depart r = k)) rows <> [].
Proof.
  intros Hin E. apply in_map_iff in Hin as (r & Hr & Hrin).
  assert (In r (List.filter (fun r => bool_decide (id_train_depart r = k)) rows)) as F.
  { apply filter_In. split; [exact Hrin|]. apply bool_decide_true. exact Hr. }
  rewrite E in F. contradiction.
Qed.

(** C7 (as the code does it): [init_dict_correspondance] always returns a
    dictionary [d] whose keys are exactly the departure-train ids of the
    table: each key maps to the arrival-train ids of its rows, in table
    order (a non-empty list), and a departure-train id that heads no row is
    not a key at all, so [d[k]] raises [KeyError] instead of giving an
    empty collection. *)
Theorem init_dict_correspondance_lookup (df_correspondance : list correspondance) :
  exists d, init_dict_correspondance df_correspondance = Ok d /\
    (forall k, d !! k = arrivees_de k df_correspondance) /\
    (forall k, (forall r, In r df_correspondance -> id_train_depart r <> k) ->
       d !! k = None /\ py_getitem d k = Err KeyError).
Proof.
  unfold init_dict_correspondance.
  set (deps := map id_train_depart df_correspondance).
  set (arrs := map id_train_arrivee df_correspondance).
  set (d0 := fold_left (fun d k => <[k := []]> d) deps (∅ : dict_corr)).
  destruct (ajouter_arrivees_spec (combine deps arrs) d0) as (d & E & H).
  { intros p Hp. subst deps arrs. rewrite combine_map in Hp.
    apply in_map_iff in Hp as (r & <- & Hr). simpl. unfold d0.
    rewrite fold_reset_lookup.
    destruct (in_dec key_dec (id_train_depart r) (map id_train_depart df_correspondance))
      as [_|Hn]; [eauto|].
    exfalso. apply Hn. apply in_map. exact Hr. }
  assert (L : forall k, d !! k = arrivees_de k df_correspondance).
  { intros k. rewrite H. subst deps arrs. rewrite combine_map, filter_pairs.
    unfold d0, arrivees_de. rewrite fold_reset_lookup.
    destruct (in_dec key_dec k (map id_train_depart df_correspondance)) as [Hin|Hn].
    - pose proof (filter_present _ _ Hin) as Hne. simpl.
      destruct (List.filter _ _); [contradiction|reflexivity].
    - rewrite filter_absent; [rewrite lookup_empty; reflexivity|].
      intros r Hr Heq. apply Hn. rewrite <- Heq. apply in_map. exact Hr. }
  exists d. split; [exact E|]. split; [exact L|].
  intros k Hk. unfold py_getitem. rewrite L. unfold arrivees_de.
  rewrite (filter_absent _ _ Hk). split; reflexivity.
Qed.

(** C7 counterexample: departure train 7000 of 2 May 2023 is absent from the
    table; the dictionary has no entry for it (no empty collection), and
    [d["7000_02"]] raises [KeyError]. *)
Lemma init_dict_absent_counterexample :
  init_dict_correspondance ex_correspondance
    = Ok (dict_of (init_dict_correspondance ex_correspondance)) /\
  dict_of (init_dict_correspondance ex_correspondance) !! Some "7000_02"%string = None /\
  py_getitem (dict_of (init_dict_correspondance ex_correspondance)) (Some "7000_02"%string)
    = Err KeyError.
Proof. split; [|split]; vm_compute; reflexivity. Qed.

(** ** The replication loop of [convertir_en_minutes] *)

Lemma last_map_pair (f : Z * Z -> Z * Z) (l : list (Z * Z)) (x y : Z * Z) :
  l <> [] -> List.last (map f l) x = f (List.last l y).
Proof.
  induction l as [|a l IH]; intros Hl; [contradiction|].
  destruct l as [|b l]; [reflexivity|].
  change (List.last (map f (b :: l)) x = f (List.last (b :: l) y)). apply IH. discriminate.
Qed.

Lemma shift_week_nil w plages : shift_week w plages = [] -> plages = [].
Proof. unfold shift_week. destruct plages; [reflexivity|discriminate]. Qed.

Lemma shift_week_last w plages :
  plages <> [] ->
  snd (List.last (shift_week w plages) (0, 0))
  = snd (List.last plages (0, 0)) + w * semaine_minutes.
Proof.
  intros Hp. unfold shift_week. rewrite (last_map_pair _ _ _ (0, 0) Hp).
  destruct (List.last plages (0, 0)). reflexivity.
Qed.

Lemma shift_week_0 plages : shift_week 0 plages = plages.
Proof.
  unfold shift_week. rewrite <- (map_id plages) at 2. apply map_ext.
  intros [deb fin]. simpl. rewrite !Z.add_0_r. reflexivity.
Qed.

Lemma semaines_K_spec e h w :
  0 <= w -> (h <? 60 * (e + w * semaine_minutes)) = (semaines_K e h <=? w).
Proof.
  intros Hw. unfold semaines_K, semaine_minutes.
  destruct (Z.ltb_spec h (60 * e)) as [Hlt|Hge].
  - destruct (Z.ltb_spec h (60 * (e + w * (7 * 24 * 60)))); destruct (Z.leb_spec 0 w); lia.
  - pose proof (Z.div_mod (h - 60 * e) (60 * (7 * 24 * 60)) ltac:(lia)) as Hd.
    pose proof (Z.mod_pos_bound (h - 60 * e) (60 * (7 * 24 * 60)) ltac:(lia)) as Hm.
    set (q := (h - 60 * e) / (60 * (7 * 24 * 60))) in *.
    set (r := (h - 60 * e) mod (60 * (7 * 24 * 60))) in *.
    destruct (Z.ltb_spec h (60 * (e + w * (7 * 24 * 60)))); destruct (Z.leb_spec (q + 1) w);
      lia.
Qed.

Lemma semaines_K_nonneg e h : 0 <= semaines_K e h.
Proof.
  unfold semaines_K, semaine_minutes. destruct (h <? 60 * e) eqn:E; [lia|].
  apply Z.ltb_ge in E.
  assert (0 <= (h - 60 * e) / (60 * (7 * 24 * 60))) by (apply Z.div_pos; lia). lia.
Qed.

Lemma flat_map_map_S (f : nat -> list (Z * Z)) l :
  flat_map f (map S l) = flat_map (fun i => f (S i)) l.
Proof. induction l as [|i l IH]; simpl; congruence. Qed.

Lemma flat_map_seq_S (f : nat -> list (Z * Z)) n :
  flat_map f (seq 0 (S n)) = f O ++ flat_map (fun i => f (S i)) (seq 0 n).
Proof.
  simpl. f_equal. rewrite <- seq_shift, flat_map_map_S. reflexivity.
Qed.

Section Boucle.

Variables (plages : list (Z * Z)) (d : Z) (ds : list Z) (id_file b : Z).
Hypothesis Hp : plages <> [].
Hypothesis Hb : base_time id_file = Some b.

Let h := fold_left Z.max ds d - b.
Let K := semaines_K (snd (List.last plages (0, 0))) h.
Let cible := cible plages d ds b.

Lemma boucle_exact fuel : forall w acc,
  0 <= w <= K ->
  boucle fuel plages (d :: ds) id_file w acc
  = if (Z.to_nat (K - w) <? fuel)%nat then Some (Ok (cible w acc)) else None.
Proof.
  induction fuel as [|f IH]; intros w acc Hw; [reflexivity|].
  cbn [boucle]. unfold dernier_depart. rewrite Hb.
  destruct (shift_week w plages) as [|x xs] eqn:Hs; [exfalso; apply Hp; eapply shift_week_nil; exact Hs|].
  rewrite <- Hs. rewrite (shift_week_last w plages Hp).
  change (fold_left Z.max ds d - b) with h. cbn [gt_horizon].
  rewrite semaines_K_spec by lia. fold K.
  destruct (Z.leb_spec K w) as [HK|HK].
  - assert (w = K) by lia. subst w. rewrite Z.sub_diag. simpl.
    unfold cible, Utils1.cible; cbv zeta; fold h; fold K. rewrite Z.sub_diag. simpl. rewrite Z.add_0_r, !app_nil_r. reflexivity.
  - rewrite IH by lia.
    assert (Hn : Z.to_nat (K - w) = S (Z.to_nat (K - (w + 1)))) by lia.
    assert (Hc : cible (w + 1) (acc ++ shift_week w plages) = cible w acc).
    { unfold cible, Utils1.cible; cbv zeta; fold h; fold K. rewrite Hn. replace (S (Z.to_nat (K - (w + 1))) + 1)%nat
        with (S (Z.to_nat (K - (w + 1)) + 1)) by lia.
      rewrite flat_map_seq_S, <- app_assoc. cbn [Z.of_nat]. rewrite Z.add_0_r.
      f_equal. f_equal. apply flat_map_ext. intros i. f_equal. lia. }
    rewrite Hc, Hn. reflexivity.
Qed.

End Boucle.

Lemma cible_0 plages d ds b :
  cible plages d ds b 0 [] = replique plages (semaines_K (snd (List.last plages (0, 0)))
                                                 (fold_left Z.max ds d - b)).
Proof.
  unfold cible, replique. rewrite Z.sub_0_r. simpl. apply flat_map_ext.
  intros i. reflexivity.
Qed.

Lemma convertir_boucle fuel s fs file id_file wb plages d ds :
  fs file = Some wb -> sillons_depart wb = d :: ds ->
  plages_of (finditer s) = Ok plages -> plages <> [] ->
  convertir_en_minutes fuel s fs file id_file = boucle fuel plages (d :: ds) id_file 0 [].
Proof.
  intros Hfs Hdep Hpl Hp. unfold convertir_en_minutes, read_sillon.
  rewrite Hfs, Hdep, Hpl. destruct plages; [contradiction|reflexivity].
Qed.

(** C5 (as the code does it): when the file opens, its departure sheet is
    not empty and [base_time(id_file)] is defined, [convertir_en_minutes]
    terminates and returns weeks [0 .. K] of every window of the text, week
    after week, where [K] is the first week in which the END of the LAST
    window listed passes the horizon (latest departure minus the origin).
    Every window is copied the same number of weeks, whatever its own
    start. *)
Theorem convertir_en_minutes_replication (fs : fsys) (file : string) (id_file : Z)
    (wb : workbook) (s : string) (plages : list (Z * Z)) (d b : Z) (ds : list Z) :
  fs file = Some wb -> sillons_depart wb = d :: ds -> base_time id_file = Some b ->
  plages_of (finditer s) = Ok plages -> plages <> [] ->
  let K := semaines_K (snd (List.last plages (0, 0))) (fold_left Z.max ds d - b) in
  (exists fuel, convertir_en_minutes fuel s fs file id_file = Some (Ok (replique plages K))) /\
  (forall fuel r, convertir_en_minutes fuel s fs file id_file = Some r ->
     r = Ok (replique plages K)).
Proof.
  intros Hfs Hdep Hb Hpl Hp K.
  assert (HK : 0 <= K) by apply semaines_K_nonneg.
  split.
  - exists (S (Z.to_nat K)).
    rewrite (convertir_boucle _ _ _ _ _ _ _ _ _ Hfs Hdep Hpl Hp).
    rewrite (boucle_exact plages d ds id_file b Hp Hb) by (fold K; lia).
    fold K. rewrite Z.sub_0_r.
    destruct (Z.to_nat K <? S (Z.to_nat K))%nat eqn:E; [|apply Nat.ltb_ge in E; lia].
    rewrite cible_0. reflexivity.
  - intros fuel r Hr.
    rewrite (convertir_boucle _ _ _ _ _ _ _ _ _ Hfs Hdep Hpl Hp) in Hr.
    rewrite (boucle_exact plages d ds id_file b Hp Hb) in Hr by (fold K; lia).
    destruct (_ <? fuel)%nat; [|discriminate].
    injection Hr as <-. rewrite cible_0. reflexivity.
Qed.

Lemma convertir_en_minutes_replication_witness :
  let s := "(2, 00:00-01:00)(1, 00:00-01:00)"%string in
  let plages := plages_ok (plages_of (finditer s)) in
  let K := semaines_K (snd (List.last plages (0, 0))) (fold_left Z.max [] (1682899200 + 6000) - 1682899200) in
  (exists fuel, convertir_en_minutes fuel s ex_fs "instance.xlsx" 0 = Some (Ok (replique plages K))) /\
  (forall fuel r, convertir_en_minutes fuel s ex_fs "instance.xlsx" 0 = Some r ->
     r = Ok (replique plages K)).
Proof.
  apply (convertir_en_minutes_replication ex_fs "instance.xlsx" 0 ex_workbook
           "(2, 00:00-01:00)(1, 00:00-01:00)"
           (plages_ok (plages_of (finditer "(2, 00:00-01:00)(1, 00:00-01:00)")))
           (1682899200 + 6000) 1682899200 []);
    vm_compute; try reflexivity; discriminate.
Defined.

(** C5 counterexample: the horizon of [ex_fs] is 6000 s, i.e. 100 minutes.
    The window [(1440, 1500)] of day 2 already starts after it in week 0,
    yet its week-1 copy [(11520, 11580)] is produced, because only the end
    of the last window listed, [(0, 60)], is compared with the horizon. *)
Lemma convertir_en_minutes_replication_counterexample :
  dernier_depart (sillons_depart ex_workbook) (base_time 0) = Ok (Some 6000) /\
  convertir_en_minutes 10 "(2, 00:00-01:00)(1, 00:00-01:00)" ex_fs "instance.xlsx" 0
  = Some (Ok [(1440, 1500); (0, 60); (11520, 11580); (10080, 10140)]).
Proof. split; vm_compute; reflexivity. Qed.

(** ** No validation of the windows *)

Lemma boucle_prefix plages deps id_file : plages <> [] ->
  forall fuel w acc out,
  boucle fuel plages deps id_file w acc = Some (Ok out) ->
  exists rest, out = acc ++ shift_week w plages ++ rest.
Proof.
  intros Hp fuel. induction fuel as [|f IH]; intros w acc out H; [discriminate|].
  cbn [boucle] in H.
  destruct (shift_week w plages) as [|x xs] eqn:Hs;
    [exfalso; apply Hp; eapply shift_week_nil; exact Hs|].
  rewrite <- Hs in H |- *.
  destruct (dernier_depart deps (base_time id_file)) as [hz|e]; [|discriminate].
  destruct (gt_horizon _ _).
  - injection H as <-. exists []. rewrite app_nil_r. reflexivity.
  - destruct (IH _ _ _ H) as [rest ->]. exists (shift_week (w + 1) plages ++ rest).
    rewrite <- !app_assoc. reflexivity.
Qed.

Lemma plages_of_err gs e : plages_of gs = Err e -> e = ValueError.
Proof.
  induction gs as [|g gs IH]; cbn [plages_of]; [discriminate|].
  unfold window_of. destruct (py_int_res (g1 g)) eqn:E1; cbn [res_bind];
    [|intros [= <-]; eapply py_int_res_err; exact E1].
  destruct (py_int_res (g2 g)) eqn:E2; cbn [res_bind];
    [|intros [= <-]; eapply py_int_res_err; exact E2].
  destruct (py_int_res (g3 g)) eqn:E3; cbn [res_bind];
    [|intros [= <-]; eapply py_int_res_err; exact E3].
  destruct (py_int_res (g4 g)) eqn:E4; cbn [res_bind];
    [|intros [= <-]; eapply py_int_res_err; exact E4].
  destruct (py_int_res (g5 g)) eqn:E5; cbn [res_bind];
    [|intros [= <-]; eapply py_int_res_err; exact E5].
  destruct (plages_of gs); cbn [res_bind]; [discriminate|]. intros [= ->]. apply IH. reflexivity.
Qed.

Lemma boucle_err plages deps id_file : forall fuel w acc e,
  boucle fuel plages deps id_file w acc = Some (Err e) ->
  base_time id_file = None /\ e = TypeError.
Proof.
  intros fuel. induction fuel as [|f IH]; intros w acc e H; [discriminate|].
  cbn [boucle] in H. destruct (shift_week w plages); [discriminate|].
  unfold dernier_depart in H at 1. destruct (base_time id_file) as [b|] eqn:Eb.
  - destruct (gt_horizon _ _); [discriminate|]. exact (IH _ _ _ H).
  - injection H as <-. auto.
Qed.

(** C6 (as the code does it): [convertir_en_minutes] checks no window.
    Whatever the windows of the text, the only errors it raises are
    [FileNotFoundError] when the file does not open, [ValueError] when a
    number of the text does not convert ([int] of more than 4300 digits)
    and [TypeError] when [base_time(id_file)] is undefined; none depends on
    the order of a window's ends, and there is no configuration error.
    When the file opens, its departure sheet is not empty and
    [base_time(id_file)] is defined, it returns; and whenever it returns,
    every window read from the text, converted to minutes, is in the
    result, also when its end is not after its start. *)
Theorem convertir_en_minutes_no_validation (s : string) (fs : fsys) (file : string)
    (id_file : Z) :
  (forall fuel e, convertir_en_minutes fuel s fs file id_file = Some (Err e) ->
     (fs file = None /\ e = FileNotFoundError) \/
     (plages_of (finditer s) = Err ValueError /\ e = ValueError) \/
     (base_time id_file = None /\ e = TypeError)) /\
  (forall plages, plages_of (finditer s) = Ok plages ->
     (forall wb, fs file = Some wb -> sillons_depart wb <> [] -> base_time id_file <> None ->
        exists fuel out, convertir_en_minutes fuel s fs file id_file = Some (Ok out)) /\
     (forall fuel out, convertir_en_minutes fuel s fs file id_file = Some (Ok out) ->
        forall w, In w plages -> In w out)).
Proof.
  split; [|intros plages Hpl; split].
  - intros fuel e H. unfold convertir_en_minutes, read_sillon in H.
    destruct (fs file) as [wb|] eqn:Ef; [|injection H as <-; left; auto].
    destruct (plages_of (finditer s)) as [[|p ps]|e'] eqn:Ep.
    + discriminate.
    + right; right. exact (boucle_err _ _ _ _ _ _ _ H).
    + injection H as <-. right; left. pose proof (plages_of_err _ _ Ep) as ->. auto.
  - intros wb Hf Hd Hb.
    destruct (sillons_depart wb) as [|d ds] eqn:Ed; [contradiction|].
    destruct (base_time id_file) as [b|] eqn:Eb; [|contradiction].
    destruct plages as [|p ps].
    + exists O, []. unfold convertir_en_minutes, read_sillon. rewrite Hf, Hpl. reflexivity.
    + assert (Hp : p :: ps <> []) by discriminate.
      set (K := semaines_K (snd (List.last (p :: ps) (0, 0))) (fold_left Z.max ds d - b)).
      assert (HK : 0 <= K) by apply semaines_K_nonneg.
      exists (S (Z.to_nat K)), (cible (p :: ps) d ds b 0 []).
      rewrite (convertir_boucle _ _ _ _ _ _ _ _ _ Hf Ed Hpl Hp).
      rewrite (boucle_exact (p :: ps) d ds id_file b Hp Eb) by (fold K; lia).
      fold K. rewrite Z.sub_0_r.
      destruct (Z.to_nat K <? S (Z.to_nat K))%nat eqn:E; [reflexivity|].
      apply Nat.ltb_ge in E. lia.
  - intros fuel out H w Hw. unfold convertir_en_minutes in H.
    destruct (read_sillon fs file) as [[arr dep]|e]; [|discriminate].
    rewrite Hpl in H. destruct plages as [|p ps]; [contradiction|].
    destruct (boucle_prefix (p :: ps) dep id_file ltac:(discriminate) _ _ _ _ H) as [rest ->].
    rewrite shift_week_0, app_nil_l. apply in_or_app. left. exact Hw.
Qed.

Lemma convertir_en_minutes_no_validation_witness :
  plages_of (finditer "(1, 10:00-09:00)") = Ok [(600, 540)] /\
  exists fuel out,
    convertir_en_minutes fuel "(1, 10:00-09:00)" ex_fs "instance.xlsx" 0 = Some (Ok out) /\
    In (600, 540) out.
Proof.
  assert (Hpl : plages_of (finditer "(1, 10:00-09:00)") = Ok [(600, 540)])
    by (vm_compute; reflexivity).
  split; [exact Hpl|].
  destruct (convertir_en_minutes_no_validation "(1, 10:00-09:00)" ex_fs "instance.xlsx" 0)
    as [_ H].
  destruct (H _ Hpl) as [Hex Hin].
  destruct (Hex ex_workbook eq_refl ltac:(discriminate) ltac:(discriminate))
    as (fuel & out & Ho).
  exists fuel, out. split; [exact Ho|]. apply (Hin fuel out Ho). left. reflexivity.
Defined.

(** C6 counterexample: the window "(1, 10:00-09:00)" ends before it starts;
    [convertir_en_minutes] returns it as [(600, 540)] without any error. *)
Lemma convertir_en_minutes_window_counterexample :
  convertir_en_minutes 10 "(1, 10:00-09:00)" ex_fs "instance.xlsx" 0
    = Some (Ok [(600, 540)]) /\ 540 <= 600.
Proof. split; [vm_compute; reflexivity | lia]. Qed.

(** ** Runs of [creation_limites_machines] *)

Lemma boucle_mono plages deps id_file : forall fuel fuel' w acc r,
  (fuel <= fuel')%nat ->
  boucle fuel plages deps id_file w acc = Some r ->
  boucle fuel' plages deps id_file w acc = Some r.
Proof.
  intros fuel. induction fuel as [|f IH]; intros fuel' w acc r Hle H; [discriminate|].
  destruct fuel' as [|f']; [lia|].
  cbn [boucle] in H |- *.
  destruct (shift_week w plages); [exact H|].
  destruct (dernier_depart deps (base_time id_file)); [|exact H].
  destruct (gt_horizon _ _); [exact H|].
  apply (IH f'); [lia|exact H].
Qed.

Lemma convertir_en_minutes_mono fuel fuel' s fs file id_file r :
  (fuel <= fuel')%nat ->
  convertir_en_minutes fuel s fs file id_file = Some r ->
  convertir_en_minutes fuel' s fs file id_file = Some r.
Proof.
  intros Hle. unfold convertir_en_minutes.
  destruct (read_sillon fs file) as [[arr dep]|e]; [|auto].
  destruct (plages_of (finditer s)) as [[|p ps]|e]; auto.
  apply boucle_mono. exact Hle.
Qed.

Lemma convertir_en_minutes_file fuel s fs1 fs2 file id_file :
  fs1 file = fs2 file ->
  convertir_en_minutes fuel s fs1 file id_file = convertir_en_minutes fuel s fs2 file id_file.
Proof. intros H. unfold convertir_en_minutes, read_sillon. rewrite H. reflexivity. Qed.

Lemma apply_all_ext {A B} (f g : A -> option (res B)) l :
  (forall x, f x = g x) -> apply_all f l = apply_all g l.
Proof. intros H. induction l as [|x l IH]; simpl; [reflexivity|]. rewrite H, IH. reflexivity. Qed.

Lemma apply_all_mono {A B} (f g : A -> option (res B)) l r :
  (forall x r', f x = Some r' -> g x = Some r') ->
  apply_all f l = Some r -> apply_all g l = Some r.
Proof.
  intros H. revert r. induction l as [|x l IH]; intros r Hr; simpl in *; [exact Hr|].
  destruct (f x) as [[y|e]|] eqn:Ef; [| |discriminate].
  - rewrite (H _ _ Ef).
    destruct (apply_all f l) as [[ys|e]|] eqn:El; [| |discriminate];
      rewrite (IH _ eq_refl); exact Hr.
  - rewrite (H _ _ Ef). exact Hr.
Qed.

Lemma creation_limites_machines_mono fuel fuel' fs file id_file r :
  (fuel <= fuel')%nat ->
  creation_limites_machines fuel fs file id_file = Some r ->
  creation_limites_machines fuel' fs file id_file = Some r.
Proof.
  intros Hle. unfold creation_limites_machines.
  destruct (fs file) as [wb|]; [|auto].
  destruct (apply_all _ _) as [r'|] eqn:E; [|discriminate].
  rewrite (apply_all_mono _ _ _ _ (fun x r'' => convertir_en_minutes_mono _ _ _ _ _ _ _ Hle) E).
  auto.
Qed.

Lemma creation_limites_machines_file fuel fs1 fs2 file id_file :
  fs1 file = fs2 file ->
  creation_limites_machines fuel fs1 file id_file
  = creation_limites_machines fuel fs2 file id_file.
Proof.
  intros H.
  assert (Hx : forall x, convertir_en_minutes fuel x fs1 file id_file
                         = convertir_en_minutes fuel x fs2 file id_file)
    by (intros x; apply convertir_en_minutes_file; exact H).
  unfold creation_limites_machines. rewrite H.
  destruct (fs2 file); [|reflexivity].
  rewrite (apply_all_ext _ _ _ Hx). reflexivity.
Qed.

(** C8: [creation_limites_machines] is deterministic: two runs that end,
    on file systems giving the same workbook for [file] and with the same
    [id_file], return the same result (the same interval lists, or the same
    exception), whatever the number of loop iterations allowed to each. *)
Theorem creation_limites_machines_deterministic (fs1 fs2 : fsys) (file : string)
    (id_file : Z) (fuel1 fuel2 : nat) (r1 r2 : res (list (machine * list Z))) :
  fs1 file = fs2 file ->
  creation_limites_machines fuel1 fs1 file id_file = Some r1 ->
  creation_limites_machines fuel2 fs2 file id_file = Some r2 ->
  r1 = r2.
Proof.
  intros Hf H1 H2. rewrite (creation_limites_machines_file _ _ _ _ _ Hf) in H1.
  apply (creation_limites_machines_mono _ (Nat.max fuel1 fuel2)) in H1; [|lia].
  apply (creation_limites_machines_mono _ (Nat.max fuel1 fuel2)) in H2; [|lia].
  congruence.
Qed.

Lemma creation_limites_machines_deterministic_witness :
  limites_of (creation_limites_machines 10 ex_fs "instance.xlsx" 0)
  = limites_of (creation_limites_machines 20 ex_fs "instance.xlsx" 0).
Proof.
  apply (creation_limites_machines_deterministic ex_fs ex_fs "instance.xlsx" 0 10 20);
    vm_compute; reflexivity.
Defined.

End Utils1Facts.

(* ------------------------------------------------------------------ *)
Module UtilsFacts.
Import Utils.

(** C9: [init_model] and [init_contr] return [None] and leave the state
    unchanged, whatever it is: they build no model, variable or
    constraint. *)
Theorem init_stubs_do_nothing (State : Type) (st : State) :
  init_model st = (Utils1.VNone, st) /\ init_contr st = (Utils1.VNone, st).
Proof. split; reflexivity. Qed.

End UtilsFacts.

(* ------------------------------------------------------------------ *)
Module NotebookExtra.
Import Notebook NotebookFacts.

(** ** Closed forms of the cells *)

Lemma for_each_exact (l : list nat) (body : nat -> cmd) (ok : nat -> bool)
    (blk : nat -> list constr) (e : exc) :
  (forall i s, body i s = if ok i then Ok (s ++ blk i) else Err e) ->
  forall s, for_each l body s =
    if forallb ok l then Ok (s ++ flat_map blk l) else Err e.
Proof.
  intros Hb. induction l as [|i l IH]; intros s; cbn [for_each forallb flat_map].
  - rewrite app_nil_r. reflexivity.
  - unfold cmd_seq. rewrite Hb. destruct (ok i); [|reflexivity].
    rewrite IH. cbn [andb]. rewrite app_assoc. reflexivity.
Qed.

Lemma add_all_app cs s : add_all cs s = Ok (s ++ cs).
Proof.
  revert s. induction cs as [|c cs IH]; intros s; cbn [add_all].
  - rewrite app_nil_r. reflexivity.
  - unfold cmd_seq, addConstr. rewrite IH, <- app_assoc. reflexivity.
Qed.

Lemma for_each_add (l : list nat) (blk : nat -> list constr) s :
  for_each l (fun i => add_all (blk i)) s = Ok (s ++ flat_map blk l).
Proof.
  rewrite (for_each_exact l _ (fun _ => true) blk TypeError).
  - replace (forallb (fun _ => true) l) with true; [reflexivity|].
    induction l; simpl; auto.
  - intros i s0. apply add_all_app.
Qed.

Lemma py_index_some (l : list Z) n :
  py_index (Some l) n = if (n <? length l)%nat then Ok (nth n l 0) else Err IndexError.
Proof.
  unfold py_index. destruct (Nat.ltb_spec n (length l)) as [H|H].
  - destruct (nth_error l n) eqn:E.
    + rewrite (nth_error_nth l n 0 E). reflexivity.
    + apply nth_error_None in E. lia.
  - replace (nth_error l n) with (@None Z); [reflexivity|].
    symmetry. apply nth_error_None. exact H.
Qed.

Lemma ordering_body_eq ta td n s :
  (let? x := py_index (Some ta) n in
   let? s1 := addConstr (CLin (t_ 0 n) GE (EConst x)) s in
   let? y := py_index (Some td) n in
   let? s2 := addConstr (CLin (EAdd (t_ (M-1) n) (T_ (M-1))) LE (EConst y)) s1 in
   for_each (range (M-1)) (fun m =>
     addConstr (CLin (EAdd (t_ m n) (T_ m)) LE (t_ (m+1) n))) s2)
  = if (n <? length ta)%nat && (n <? length td)%nat
    then Ok (s ++ ordering_block ta td n) else Err IndexError.
Proof.
  rewrite !py_index_some.
  destruct (n <? length ta)%nat; [|reflexivity].
  destruct (n <? length td)%nat; [|reflexivity].
  cbn [res_bind addConstr andb].
  rewrite (for_each_exact _ _ (fun _ => true)
             (fun m => [CLin (EAdd (t_ m n) (T_ m)) LE (t_ (m+1) n)]) TypeError).
  - cbn. unfold ordering_block. rewrite <- !app_assoc. reflexivity.
  - intros i s0. reflexivity.
Qed.

Lemma forallb_range_lt (k a : nat) :
  forallb (fun n => (n <? a)%nat) (range k) = (k <=? a)%nat.
Proof.
  unfold range. induction k as [|k IH]; [reflexivity|].
  rewrite seq_S, forallb_app, IH. cbn [forallb]. rewrite andb_true_r, Nat.add_0_l.
  destruct (Nat.leb_spec k a), (Nat.ltb_spec k a), (Nat.leb_spec (S k) a);
    reflexivity || lia.
Qed.

Lemma forallb_andb {A} (f g : A -> bool) l :
  forallb (fun x => f x && g x) l = forallb f l && forallb g l.
Proof.
  induction l as [|x l IH]; [reflexivity|]. cbn [forallb]. rewrite IH.
  destruct (f x), (g x), (forallb f l), (forallb g l); reflexivity.
Qed.

Lemma cell_ordering_eq ta td s :
  cell_ordering (Some ta) (Some td) s =
    if (N <=? length ta)%nat && (N <=? length td)%nat
    then Ok (s ++ ordering_constrs ta td) else Err IndexError.
Proof.
  unfold cell_ordering, ordering_constrs.
  rewrite (for_each_exact _ _ (fun n => (n <? length ta)%nat && (n <? length td)%nat)
             (ordering_block ta td) IndexError).
  - rewrite forallb_andb, !forallb_range_lt. reflexivity.
  - intros i s0. apply ordering_body_eq.
Qed.

Lemma cell_exclusion_eq s : cell_exclusion s = Ok (s ++ exclusion_all).
Proof.
  unfold cell_exclusion, exclusion_all.
  rewrite (for_each_exact _ _ (fun _ => true) (fun m => flat_map (fun n1 =>
    flat_map (fun n2 => exclusion_constrs m n1 n2) (range2 (n1+1) N)) (range (N-1)))
    TypeError); [reflexivity|intros m s0].
  rewrite (for_each_exact _ _ (fun _ => true) (fun n1 =>
    flat_map (fun n2 => exclusion_constrs m n1 n2) (range2 (n1+1) N)) TypeError);
    [reflexivity|intros n1 s1].
  apply for_each_add.
Qed.

Lemma cell_calendar_eq s : cell_calendar s = Ok (s ++ calendar_all).
Proof.
  unfold cell_calendar, calendar_all.
  rewrite (for_each_exact _ _ (fun _ => true) (fun m =>
    flat_map (fun n => calendar_constrs m n) (range N)) TypeError);
    [reflexivity|intros m s0].
  apply for_each_add.
Qed.

Lemma notebook_model_eq ta td :
  notebook_model ta td =
    if (N <=? length ta)%nat && (N <=? length td)%nat
    then Ok (ordering_constrs ta td ++ exclusion_all ++ calendar_all)
    else Err IndexError.
Proof.
  unfold notebook_model. rewrite cell_ordering_eq.
  destruct ((N <=? length ta)%nat && (N <=? length td)%nat); [|reflexivity].
  cbn [res_bind]. rewrite cell_exclusion_eq. cbn [res_bind].
  rewrite cell_calendar_eq. rewrite <- app_assoc. reflexivity.
Qed.

Lemma in_exclusion_all c :
  In c exclusion_all <-> exists m n1 n2, In m machines /\ (n1 < n2 < N)%nat /\
    In c (exclusion_constrs m n1 n2).
Proof.
  unfold exclusion_all. rewrite in_flat_map. split.
  - intros (m & Hm & H). apply in_flat_map in H as (n1 & H1 & H).
    apply in_flat_map in H as (n2 & H2 & H).
    apply in_range in H1. apply in_range2 in H2. exists m, n1, n2. auto with zarith.
  - intros (m & n1 & n2 & Hm & Hn & Hc). exists m. split; [exact Hm|].
    apply in_flat_map. exists n1. split; [apply in_range; unfold N in *; lia|].
    apply in_flat_map. exists n2. split; [apply in_range2; lia | exact Hc].
Qed.

Lemma in_calendar_all c :
  In c calendar_all <-> exists m n, In m calendar_tasks /\ (n < N)%nat /\
    In c (calendar_constrs m n).
Proof.
  unfold calendar_all. rewrite in_flat_map. split.
  - intros (m & Hm & H). apply in_flat_map in H as (n & Hn & H).
    apply in_range in Hn. eauto.
  - intros (m & n & Hm & Hn & Hc). exists m. split; [exact Hm|].
    apply in_flat_map. exists n. split; [apply in_range; exact Hn | exact Hc].
Qed.

Lemma Ok_inj {A} (x y : A) : Ok x = Ok y -> x = y.
Proof. intros H. injection H. auto. Qed.

Lemma forallb_flat_map {A B} (f : B -> bool) (g : A -> list B) l :
  forallb f (flat_map g l) = forallb (fun x => forallb f (g x)) l.
Proof.
  induction l as [|x l IH]; [reflexivity|]. cbn [flat_map forallb].
  rewrite forallb_app, IH. reflexivity.
Qed.

Lemma sat_ordering_block a ta td n :
  forallb (satb a) (ordering_block ta td n) = true <->
  nth n ta 0 <= a (VT 0 n) /\ a (VT (M-1) n) + T (M-1) <= nth n td 0 /\
  (forall m, (m < M - 1)%nat -> a (VT m n) + T m <= a (VT (S m) n)).
Proof.
  unfold ordering_block. rewrite forallb_app. cbn [forallb satb holds eval t_ T_ app].
  rewrite andb_true_r, !andb_true_iff, !Z.leb_le, forallb_forall.
  split.
  - intros [[H1 H2] H3]. split; [exact H1|]. split; [exact H2|].
    intros m Hm. specialize (H3 (CLin (EAdd (t_ m n) (T_ m)) LE (t_ (m+1) n))).
    rewrite Nat.add_1_r in H3. apply Z.leb_le, H3, in_map_iff.
    exists m. split; [now rewrite Nat.add_1_r | apply in_range; exact Hm].
  - intros (H1 & H2 & H3). split; [split; assumption|].
    intros c Hc. apply in_map_iff in Hc as (m & <- & Hm). apply in_range in Hm.
    cbn [satb holds eval t_ T_]. rewrite Nat.add_1_r. apply Z.leb_le, H3, Hm.
Qed.

Lemma ordering_constrs_sat a ta td :
  forallb (satb a) (ordering_constrs ta td) = true <->
  ordering_ok ta td (fun m n => a (VT m n)).
Proof.
  unfold ordering_constrs, ordering_ok. rewrite forallb_flat_map, forallb_forall.
  split.
  - intros H n Hn. apply sat_ordering_block, H, in_range, Hn.
  - intros H n Hn. apply sat_ordering_block, H, in_range, Hn.
Qed.

Lemma ordering_ok_ext ta td f g :
  (forall m n, f m n = g m n) -> ordering_ok ta td f -> ordering_ok ta td g.
Proof. intros E H n Hn. rewrite <- !E. setoid_rewrite <- E. apply H, Hn. Qed.

Lemma exclusion_ok_ext f g :
  (forall m n, f m n = g m n) -> exclusion_ok f -> exclusion_ok g.
Proof. intros E H m n1 n2 Hm Hn. rewrite <- !E. apply H; assumption. Qed.

Lemma calendar_ok_ext f g :
  (forall m n, f m n = g m n) -> calendar_ok f -> calendar_ok g.
Proof. intros E H m n Hm Hn. rewrite <- E. apply H; assumption. Qed.

Lemma b2z_bin b : b2z b = 0 \/ b2z b = 1.
Proof. destruct b; auto. Qed.

Lemma point_of_dom sched :
  (forall m n, 0 <= sched m n) -> forall v, var_dom v (point_of sched v).
Proof.
  intros H [m n | m n1 n2 [|[|k]] | m n i]; cbn [var_dom point_of];
    auto using b2z_bin.
Qed.

Lemma leb_sub_r x c d : (x <=? c - d) = (x + d <=? c).
Proof. destruct (Z.leb_spec x (c-d)), (Z.leb_spec (x+d) c); reflexivity || lia. Qed.

Lemma exclusion_sound a :
  (forall v, var_dom v (a v)) -> forallb (satb a) exclusion_all = true ->
  exclusion_ok (fun m n => a (VT m n)).
Proof.
  intros Hd Hs m n1 n2 Hm Hn. rewrite forallb_forall in Hs.
  assert (P : forall c, In c (exclusion_constrs m n1 n2) -> satb a c = true).
  { intros c Hc. apply Hs, in_exclusion_all. exists m, n1, n2. auto. }
  pose proof (sat_ind_le _ _ _ _ (P _ (or_introl eq_refl))) as F0.
  pose proof (sat_ind_ge _ _ _ _ (P _ (or_intror (or_introl eq_refl)))) as F1.
  pose proof (sat_lin_ge _ _ _ (P _ (or_intror (or_intror (or_introl eq_refl))))) as F2.
  pose proof (Hd (VD1 m n1 n2 0)) as D0. pose proof (Hd (VD1 m n1 n2 1)) as D1.
  cbn [var_dom eval t_ T_] in F0, F1, F2, D0, D1. cbv beta. lia.
Qed.

Lemma exclusion_complete sched :
  exclusion_ok sched -> forallb (satb (point_of sched)) exclusion_all = true.
Proof.
  intros H. apply forallb_forall. intros c Hc.
  apply in_exclusion_all in Hc as (m & n1 & n2 & Hm & Hn & Hc).
  specialize (H m n1 n2 Hm Hn).
  destruct Hc as [<-|[<-|[<-|[]]]]; cbn [satb eval holds point_of t_ T_];
    rewrite ?leb_sub_r;
    destruct (Z.leb_spec (sched m n2 + T m) (sched m n1)),
             (Z.leb_spec (sched m n1 + T m) (sched m n2));
    cbn; reflexivity || lia.
Qed.

Lemma calendar_block_complete sched m n :
  (exists k, in_window (sched m n) (T m) k = true) ->
  forallb (satb (point_of sched)) (calendar_constrs m n) = true.
Proof.
  intros [k Hk]. unfold calendar_constrs, d2, t_, T_.
  cbn [forallb satb eval holds point_of calendar_window in_window].
  revert Hk. generalize (sched m n) (T m). intros t d.
  rewrite !leb_sub_r.
  destruct k as [|[|[|[|[|k]]]]]; cbn [in_window]; [| | | | |intros E; discriminate E];
  repeat match goal with
         | |- context [t + d <=? ?y] => destruct (t + d <=? y)
         | |- context [?x <=? t] => destruct (x <=? t)
         end;
  cbn; intros; (reflexivity || discriminate).
Qed.

Lemma calendar_complete sched :
  calendar_ok sched -> forallb (satb (point_of sched)) calendar_all = true.
Proof.
  intros H. apply forallb_forall. intros c Hc.
  apply in_calendar_all in Hc as (m & n & Hm & Hn & Hc).
  pose proof (calendar_block_complete sched m n (H m n Hm Hn)) as B.
  rewrite forallb_forall in B. apply B, Hc.
Qed.

Lemma calendar_block_sound a m n :
  (forall v, var_dom v (a v)) -> forallb (satb a) (calendar_constrs m n) = true ->
  exists k, in_window (a (VT m n)) (T m) k = true.
Proof.
  intros D Hs. rewrite forallb_forall in Hs.
  assert (Q : forall i c, nth_error (calendar_constrs m n) i = Some c -> satb a c = true).
  { intros i c E. apply Hs, (nth_error_In _ _ E). }
  pose proof (sat_ind_le _ _ _ _ (Q 0%nat _ eq_refl)) as F0.
  pose proof (sat_ind_ge _ _ _ _ (Q 1%nat _ eq_refl)) as F1.
  pose proof (sat_ind_le _ _ _ _ (Q 2%nat _ eq_refl)) as F2.
  pose proof (sat_ind_ge _ _ _ _ (Q 3%nat _ eq_refl)) as F3.
  pose proof (sat_ind_le _ _ _ _ (Q 4%nat _ eq_refl)) as F4.
  pose proof (sat_ind_ge _ _ _ _ (Q 5%nat _ eq_refl)) as F5.
  pose proof (sat_ind_le _ _ _ _ (Q 6%nat _ eq_refl)) as F6.
  pose proof (sat_ind_ge _ _ _ _ (Q 7%nat _ eq_refl)) as F7.
  pose proof (sat_lin_eq _ _ _ (Q 8%nat _ eq_refl)) as F8.
  pose proof (sat_lin_eq _ _ _ (Q 9%nat _ eq_refl)) as F9.
  pose proof (sat_lin_eq _ _ _ (Q 10%nat _ eq_refl)) as F10.
  pose proof (sat_lin_ge _ _ _ (Q 11%nat _ eq_refl)) as F11.
  pose proof (D (VD2 m n 0)) as D0. pose proof (D (VD2 m n 1)) as D1.
  pose proof (D (VD2 m n 2)) as D2. pose proof (D (VD2 m n 3)) as D3.
  pose proof (D (VD2 m n 4)) as D4. pose proof (D (VD2 m n 5)) as D5.
  pose proof (D (VD2 m n 6)) as D6. pose proof (D (VD2 m n 7)) as D7.
  pose proof (D (VD2 m n 8)) as D8. pose proof (D (VD2 m n 9)) as D9.
  pose proof (D (VD2 m n 10)) as D10.
  clear Q Hs D. cbn [var_dom eval t_ T_ d2] in *.
  set (t := a (VT m n)) in *.
  destruct D0 as [E0|E0].
  2:{ exists 0%nat. cbn [in_window]. apply Z.leb_le. specialize (F0 E0). lia. }
  destruct D8 as [E8|E8].
  2:{ destruct (prod_bin _ _ _ D1 D2 F8 E8) as [E1 E2]. exists 1%nat.
      cbn [in_window]. rewrite andb_true_iff, !Z.leb_le.
      specialize (F1 E1). specialize (F2 E2). lia. }
  destruct D9 as [E9|E9].
  2:{ destruct (prod_bin _ _ _ D3 D4 F9 E9) as [E3 E4]. exists 2%nat.
      cbn [in_window]. rewrite andb_true_iff, !Z.leb_le.
      specialize (F3 E3). specialize (F4 E4). lia. }
  destruct D10 as [E10|E10].
  2:{ destruct (prod_bin _ _ _ D5 D6 F10 E10) as [E5 E6]. exists 3%nat.
      cbn [in_window]. rewrite andb_true_iff, !Z.leb_le.
      specialize (F5 E5). specialize (F6 E6). lia. }
  destruct D7 as [E7|E7].
  2:{ exists 4%nat. cbn [in_window]. apply Z.leb_le. specialize (F7 E7). lia. }
  exfalso. lia.
Qed.

Lemma calendar_sound a :
  (forall v, var_dom v (a v)) -> forallb (satb a) calendar_all = true ->
  calendar_ok (fun m n => a (VT m n)).
Proof.
  intros D Hs m n Hm Hn. apply (calendar_block_sound a m n D).
  rewrite forallb_forall in Hs |- *. intros c Hc.
  apply Hs, in_calendar_all. exists m, n. auto.
Qed.

(** ** Properties of the notebook's cells *)

(** X1: the ordering cell raises [TypeError] with the notebook's binding
    [t_a = None]; with list data it succeeds exactly when both lists have at
    least [N] entries, appending for each wagon in turn the release, due and
    six order constraints, and otherwise raises [IndexError]. *)
Theorem cell_ordering_outcome (ta td : list Z) (t_d : option (list Z))
    (s : list constr) :
  cell_ordering None t_d s = Err TypeError /\
  cell_ordering (Some ta) (Some td) s =
    if (N <=? length ta)%nat && (N <=? length td)%nat
    then Ok (s ++ ordering_constrs ta td) else Err IndexError.
Proof. split; [reflexivity | apply cell_ordering_eq]. Qed.

(** X2: the constraints added by the ordering cell hold at a point exactly
    when, for every wagon [n < N], the first task starts at or after
    [t_a[n]], the last task ends by [t_d[n]] and each task ends before the
    next one starts; the constraints already posted are kept as they are. *)
Theorem cell_ordering_exact (ta td : list Z) (s s' : list constr) (a : assignment) :
  cell_ordering (Some ta) (Some td) s = Ok s' ->
  (forallb (satb a) s' = true <->
   forallb (satb a) s = true /\ ordering_ok ta td (fun m n => a (VT m n))).
Proof.
  intros H. rewrite cell_ordering_eq in H.
  destruct ((N <=? length ta)%nat && (N <=? length td)%nat); [|discriminate].
  apply Ok_inj in H. subst s'. rewrite forallb_app, andb_true_iff, ordering_constrs_sat.
  reflexivity.
Qed.

Lemma cell_ordering_exact_witness :
  cell_ordering (Some ex_ta) (Some ex_td) []
    = Ok (ordering_constrs ex_ta ex_td) /\
  (forallb (satb (point_of ex_sched)) (ordering_constrs ex_ta ex_td) = true <->
   forallb (satb (point_of ex_sched)) [] = true /\
   ordering_ok ex_ta ex_td (fun m n => point_of ex_sched (VT m n))).
Proof.
  assert (H : cell_ordering (Some ex_ta) (Some ex_td) [] = Ok (ordering_constrs ex_ta ex_td))
    by (vm_compute; reflexivity).
  split; [exact H|]. exact (cell_ordering_exact _ _ _ _ (point_of ex_sched) H).
Defined.

(** X3: when the three constraint cells run in order on list data with at
    least [N] entries, a start-time table [t] extends to a feasible point of
    the resulting model exactly when it is non-negative, respects release,
    due and task order for every wagon, never overlaps two wagons on
    machines 2, 4 and 5, and places every task 2 to 5 inside one of the five
    open windows of [Limites]. *)
Theorem notebook_model_exact (ta td : list Z) (s' : list constr)
    (sched : nat -> nat -> Z) :
  notebook_model ta td = Ok s' ->
  ((exists a, feasible a s' /\ forall m n, a (VT m n) = sched m n) <->
   (forall m n, 0 <= sched m n) /\ ordering_ok ta td sched /\
   exclusion_ok sched /\ calendar_ok sched).
Proof.
  intros H. rewrite notebook_model_eq in H.
  destruct ((N <=? length ta)%nat && (N <=? length td)%nat); [|discriminate].
  apply Ok_inj in H. subst s'. split.
  - intros (a & [Hd Hs] & Ha).
    rewrite !forallb_app, !andb_true_iff in Hs. destruct Hs as (H1 & H2 & H3).
    split; [intros m n; rewrite <- Ha; exact (Hd (VT m n))|].
    split; [apply (ordering_ok_ext _ _ (fun m n => a (VT m n))); auto;
            apply ordering_constrs_sat, H1|].
    split; [apply (exclusion_ok_ext (fun m n => a (VT m n))); auto;
            apply exclusion_sound; assumption|].
    apply (calendar_ok_ext (fun m n => a (VT m n))); auto.
    apply calendar_sound; assumption.
  - intros (Hnn & Ho & He & Hc). exists (point_of sched).
    split; [|intros m n; reflexivity]. split; [apply point_of_dom, Hnn|].
    rewrite !forallb_app, !andb_true_iff. split; [apply ordering_constrs_sat, Ho|].
    split; [apply exclusion_complete, He | apply calendar_complete, Hc].
Qed.

Lemma notebook_model_exact_witness :
  notebook_model ex_ta ex_td = Ok (model_of (notebook_model ex_ta ex_td)) /\
  exists a, feasible a (model_of (notebook_model ex_ta ex_td)) /\
    forall m n, a (VT m n) = ex_sched m n.
Proof.
  assert (H : notebook_model ex_ta ex_td = Ok (model_of (notebook_model ex_ta ex_td)))
    by (vm_compute; reflexivity).
  split; [exact H|]. apply (notebook_model_exact _ _ _ ex_sched H).
  unfold ex_sched. split; [intros m n; cbn [Limites Limites_list nth map]; lia|].
  split; [|split].
  - intros n Hn. unfold ex_ta, ex_td. rewrite !nth_repeat_lt by exact Hn.
    unfold N in Hn. split; [cbn; lia|]. split; [cbn; lia|].
    intros m Hm. unfold M in Hm. rewrite Nat2Z.inj_succ.
    do 6 (destruct m as [|m]; [cbn; lia|]). lia.
  - intros m n1 n2 Hm Hn. unfold N in Hn. right.
    destruct Hm as [<-|[<-|[<-|[]]]]; cbn [T T_list nth]; lia.
  - intros m n Hm Hn. exists 4%nat. cbn [in_window]. apply Z.leb_le.
    cbn [Limites Limites_list nth map]. lia.
Defined.

End NotebookExtra.

(* ------------------------------------------------------------------ *)
Module Utils1Extra.
Import Utils1 Utils1Facts.

(** ** Digits *)

Lemma is_digit_code c : is_digit c = true -> (48 <= code c <= 57)%nat.
Proof. unfold is_digit. rewrite andb_true_iff, !Nat.leb_le. lia. Qed.

Lemma digit_not_space c : is_digit c = true -> py_isspace c = false.
Proof.
  intros H. apply is_digit_code in H. unfold py_isspace.
  destruct (Nat.leb_spec 9 (code c)), (Nat.leb_spec (code c) 13),
           (Nat.leb_spec 28 (code c)), (Nat.leb_spec (code c) 32),
           (Nat.eqb_spec (code c) 133), (Nat.eqb_spec (code c) 160); cbn; lia || reflexivity.
Qed.

Lemma digit_neq c d : is_digit c = true -> is_digit d = false -> Ascii.eqb c d = false.
Proof.
  intros Hc Hd. destruct (Ascii.eqb_spec c d) as [->|]; [congruence | reflexivity].
Qed.

Lemma lstrip_digits l : all_digits l = true -> lstrip l = l.
Proof.
  destruct l as [|c l]; [reflexivity|]. cbn [all_digits forallb].
  rewrite andb_true_iff. intros [Hc _]. cbn. rewrite digit_not_space by exact Hc.
  reflexivity.
Qed.

Lemma all_digits_app l1 l2 : all_digits (l1 ++ l2) = all_digits l1 && all_digits l2.
Proof. apply forallb_app. Qed.

Lemma all_digits_rev l : all_digits (rev l) = all_digits l.
Proof.
  unfold all_digits. induction l as [|c l IH]; [reflexivity|]. cbn [rev].
  rewrite forallb_app, IH. cbn [forallb]. rewrite andb_true_r, andb_comm. reflexivity.
Qed.

Lemma strip_digits l : all_digits l = true -> strip l = l.
Proof.
  intros H. unfold strip. rewrite (lstrip_digits l H), lstrip_digits.
  - apply rev_involutive.
  - rewrite all_digits_rev. exact H.
Qed.

Lemma digits_body_digits l : all_digits l = true -> digits_body l = Some l.
Proof.
  induction l as [|c l IH]; [reflexivity|]. cbn [all_digits forallb].
  rewrite andb_true_iff. intros [Hc Hl]. cbn. rewrite Hc.
  change (forallb is_digit l) with (all_digits l) in Hl.
  rewrite (IH Hl). reflexivity.
Qed.

Lemma py_int_digits l :
  all_digits l = true -> (1 <= length l <= 4300)%nat -> py_int l = Some (digits_value l).
Proof.
  intros H Hl. unfold py_int. rewrite (strip_digits l H).
  destruct l as [|c r]; [cbn in Hl; lia|].
  pose proof H as H'. cbn [all_digits forallb] in H'. apply andb_true_iff in H' as [Hc _].
  rewrite (digit_neq c "-" Hc eq_refl), (digit_neq c "+" Hc eq_refl), Hc.
  rewrite (digits_body_digits _ H).
  destruct (Nat.leb_spec (length (c :: r)) 4300); [reflexivity | lia].
Qed.

Lemma py_int_res_digits l :
  all_digits l = true -> (1 <= length l <= 4300)%nat -> py_int_res l = Ok (digits_value l).
Proof. intros H Hl. unfold py_int_res. rewrite (py_int_digits l H Hl). reflexivity. Qed.

Lemma split_on_none c l :
  forallb (fun d => negb (Ascii.eqb d c)) l = true -> split_on c l = [l].
Proof.
  induction l as [|d l IH]; [reflexivity|]. cbn [forallb].
  rewrite andb_true_iff, negb_true_iff. intros [Hd Hl]. cbn. rewrite Hd, (IH Hl).
  reflexivity.
Qed.

Lemma split_on_app c l1 l2 :
  forallb (fun d => negb (Ascii.eqb d c)) l1 = true ->
  split_on c (l1 ++ c :: l2) = l1 :: split_on c l2.
Proof.
  induction l1 as [|d l1 IH]; cbn [forallb app].
  - intros _. cbn. rewrite Ascii.eqb_refl. reflexivity.
  - rewrite andb_true_iff, negb_true_iff. intros [Hd Hl]. cbn. rewrite Hd, (IH Hl).
    reflexivity.
Qed.

Lemma digits_no_sep c l :
  is_digit c = false -> all_digits l = true -> forallb (fun d => negb (Ascii.eqb d c)) l = true.
Proof.
  intros Hc H. apply forallb_forall. intros d Hd.
  unfold all_digits in H. rewrite forallb_forall in H.
  rewrite (digit_neq d c (H d Hd) Hc). reflexivity.
Qed.

(** ** The hour of a cell *)

(** X4: [convert_hour_to_minutes] reads a text ["<digits>:<digits>"] (each
    part 1 to 4300 digits) as hours * 60 + minutes; it checks no range, so
    ["25:99"] gives 1599. *)
Lemma hour_round_trip (ph pm : list ascii) :
  all_digits ph = true -> all_digits pm = true ->
  (1 <= length ph <= 4300)%nat -> (1 <= length pm <= 4300)%nat ->
  convert_hour_to_minutes (VStr (string_of_list_ascii (ph ++ ":"%char :: pm)))
    = Ok (Some (digits_value ph * 60 + digits_value pm)).
Proof.
  intros Hh Hm Lh Lm. unfold convert_hour_to_minutes, hour_try.
  cbn [py_isna py_isstr negb orb]. rewrite list_ascii_of_string_of_list_ascii.
  rewrite split_on_app by (apply digits_no_sep; [reflexivity | assumption]).
  rewrite split_on_none by (apply digits_no_sep; [reflexivity | assumption]).
  rewrite (py_int_res_digits ph Hh Lh), (py_int_res_digits pm Hm Lm). reflexivity.
Qed.

(** ** The pattern of [convertir_en_minutes] *)

Lemma span_digits_app ds c r :
  all_digits ds = true -> is_digit c = false -> span_digits (ds ++ c :: r) = (ds, c :: r).
Proof.
  intros H Hc. induction ds as [|d ds IH]; cbn [app span_digits].
  - rewrite Hc. reflexivity.
  - cbn [all_digits forallb] in H. apply andb_true_iff in H as [Hd H].
    rewrite Hd, (IH H). reflexivity.
Qed.

Lemma skip_space_app sp c r :
  forallb py_isspace sp = true -> py_isspace c = false -> skip_space (sp ++ c :: r) = c :: r.
Proof.
  intros H Hc. induction sp as [|d sp IH]; cbn [app skip_space].
  - rewrite Hc. reflexivity.
  - cbn [forallb] in H. apply andb_true_iff in H as [Hd H]. rewrite Hd. exact (IH H).
Qed.

Lemma digits12_app ds c r :
  all_digits ds = true -> (1 <= length ds <= 2)%nat -> is_digit c = false ->
  digits12 (ds ++ c :: r) = Some (ds, c :: r).
Proof.
  intros H L Hc. destruct ds as [|a [|b [|x ds]]]; cbn in L; try lia;
    cbn [all_digits forallb] in H; rewrite ?andb_true_r, ?andb_true_iff in H.
  - cbn. rewrite H, Hc. reflexivity.
  - destruct H as [Ha Hb]. cbn. rewrite Ha, Hb. reflexivity.
Qed.

Lemma digits2_app ds r :
  all_digits ds = true -> length ds = 2%nat -> digits2 (ds ++ r) = Some (ds, r).
Proof.
  intros H L. destruct ds as [|a [|b [|x ds]]]; cbn in L; try lia.
  cbn [all_digits forallb] in H. rewrite andb_true_r in H. cbn. rewrite H. reflexivity.
Qed.

Lemma window_text_app g sp rest :
  window_text g sp ++ rest =
  "("%char :: g1 g ++ ","%char :: sp ++ g2 g ++ ":"%char :: g3 g ++ "-"%char :: g4 g
    ++ ":"%char :: g5 g ++ ")"%char :: rest.
Proof. unfold window_text. do 8 (try rewrite <- app_assoc; cbn [app]). reflexivity. Qed.

Lemma groups_ok_spec g : groups_ok g = true ->
  all_digits (g1 g) = true /\ (1 <= length (g1 g))%nat /\
  all_digits (g2 g) = true /\ (1 <= length (g2 g) <= 2)%nat /\
  all_digits (g3 g) = true /\ length (g3 g) = 2%nat /\
  all_digits (g4 g) = true /\ (1 <= length (g4 g) <= 2)%nat /\
  all_digits (g5 g) = true /\ length (g5 g) = 2%nat.
Proof.
  unfold groups_ok. rewrite !andb_true_iff, !Nat.leb_le, !Nat.eqb_eq. tauto.
Qed.

Lemma match_at_window g sp rest :
  groups_ok g = true -> forallb py_isspace sp = true ->
  match_at (window_text g sp ++ rest) = Some (g, rest).
Proof.
  intros Hg Hsp. destruct (groups_ok_spec g Hg) as (H1 & L1 & H2 & L2 & H3 & L3 & H4 & L4 & H5 & L5).
  rewrite window_text_app. destruct g as [d1 d2 d3 d4 d5]. cbn [g1 g2 g3 g4 g5] in *.
  unfold match_at. cbn [expect]. rewrite Ascii.eqb_refl. cbn [opt_bind].
  rewrite (span_digits_app d1 "," _ H1 eq_refl).
  destruct d1 as [|x d1]; [cbn in L1; lia|]. cbn [opt_bind expect].
  rewrite Ascii.eqb_refl. cbn [opt_bind].
  destruct d2 as [|c2 d2']; [cbn in L2; lia|].
  assert (Hc2 : py_isspace c2 = false).
  { apply digit_not_space. cbn [all_digits forallb] in H2. apply andb_true_iff in H2. tauto. }
  rewrite <- app_comm_cons, (skip_space_app sp c2 _ Hsp Hc2), app_comm_cons.
  rewrite (digits12_app (c2 :: d2') ":" _ H2 L2 eq_refl). cbn [opt_bind expect].
  rewrite Ascii.eqb_refl. cbn [opt_bind].
  rewrite (digits2_app d3 _ H3 L3). cbn [opt_bind expect].
  rewrite Ascii.eqb_refl. cbn [opt_bind].
  rewrite (digits12_app d4 ":" _ H4 L4 eq_refl). cbn [opt_bind expect].
  rewrite Ascii.eqb_refl. cbn [opt_bind].
  rewrite (digits2_app d5 _ H5 L5). cbn [opt_bind expect].
  rewrite Ascii.eqb_refl. cbn [opt_bind].
  reflexivity.
Qed.

Lemma match_at_other c l : Ascii.eqb c "(" = false -> match_at (c :: l) = None.
Proof. intros H. unfold match_at. cbn [expect]. rewrite Ascii.eqb_sym, H. reflexivity. Qed.

Lemma finditer_sep f sep l :
  no_paren sep = true -> (length sep <= f)%nat ->
  finditer_fuel f (sep ++ l) = finditer_fuel (f - length sep) l.
Proof.
  revert f. induction sep as [|c sep IH]; intros f H L.
  - rewrite Nat.sub_0_r. reflexivity.
  - cbn [no_paren forallb] in H. apply andb_true_iff in H as [Hc H].
    apply negb_true_iff in Hc.
    destruct f as [|f]; [cbn in L; lia|]. cbn [app finditer_fuel].
    rewrite (match_at_other c _ Hc). cbn [length]. rewrite Nat.sub_succ.
    apply IH; [exact H | cbn in L; lia].
Qed.

Lemma finditer_fuel_nil f : finditer_fuel f [] = [].
Proof. destruct f; reflexivity. Qed.

Lemma finditer_window f g sp rest :
  groups_ok g = true -> forallb py_isspace sp = true ->
  finditer_fuel (S f) (window_text g sp ++ rest) = g :: finditer_fuel f rest.
Proof.
  intros Hg Hsp. rewrite window_text_app. cbn [finditer_fuel].
  rewrite <- window_text_app, (match_at_window g sp rest Hg Hsp). reflexivity.
Qed.

Lemma finditer_items (items : list (list ascii * groups * list ascii)) tail f :
  Forall window_item_ok items -> no_paren tail = true ->
  (length (concat (map (fun '(sep, g, sp) => sep ++ window_text g sp) items) ++ tail) <= f)%nat ->
  finditer_fuel f (concat (map (fun '(sep, g, sp) => sep ++ window_text g sp) items) ++ tail)
    = map (fun '(_, g, _) => g) items.
Proof.
  revert f. induction items as [|[[sep g] sp] items IH]; intros f Hi Ht L.
  - cbn [map concat app] in *. rewrite <- (app_nil_r tail), finditer_sep by (assumption || lia).
    apply finditer_fuel_nil.
  - inversion Hi as [|it its Hit Hits]; subst. destruct Hit as (Hsep & Hg & Hsp & _).
    cbn [map concat] in *. rewrite <- !app_assoc in *.
    rewrite length_app in L.
    rewrite finditer_sep by (assumption || lia).
    assert (Lw : (1 <= length (window_text g sp))%nat) by (unfold window_text; cbn; lia).
    rewrite length_app in L.
    destruct (f - length sep)%nat as [|f'] eqn:Ef; [lia|].
    rewrite (finditer_window f' g sp _ Hg Hsp). f_equal.
    apply IH; [exact Hits | exact Ht | lia].
Qed.

Lemma window_of_minutes g :
  groups_ok g = true -> (length (g1 g) <= 4300)%nat -> window_of g = Ok (window_minutes g).
Proof.
  intros Hg L. destruct (groups_ok_spec g Hg) as (H1 & L1 & H2 & L2 & H3 & L3 & H4 & L4 & H5 & L5).
  unfold window_of, window_minutes.
  rewrite (py_int_res_digits _ H1), (py_int_res_digits _ H2), (py_int_res_digits _ H3),
    (py_int_res_digits _ H4), (py_int_res_digits _ H5) by lia.
  reflexivity.
Qed.

(** X5: the pattern of [convertir_en_minutes] reads back every window
    [(day, hh:mm-hh:mm)] written into a text, in order, whatever the text
    between windows (as long as it holds no parenthesis), and converts each
    to [(day-1)*1440 + 60*h + m] for both ends. *)
Theorem windows_round_trip (items : list (list ascii * groups * list ascii)) (tail : list ascii) :
  Forall window_item_ok items -> no_paren tail = true ->
  plages_of (finditer (string_of_list_ascii
    (concat (map (fun '(sep, g, sp) => sep ++ window_text g sp) items) ++ tail)))
  = Ok (map (fun '(_, g, _) => window_minutes g) items).
Proof.
  intros Hi Ht. unfold finditer. rewrite list_ascii_of_string_of_list_ascii.
  rewrite finditer_items by (assumption || lia).
  induction items as [|[[sep g] sp] items IH]; [reflexivity|].
  inversion Hi as [|it its Hit Hits]; subst. destruct Hit as (_ & Hg & _ & L).
  cbn [map plages_of]. rewrite (window_of_minutes g Hg L). cbn [res_bind].
  rewrite (IH Hits). reflexivity.
Qed.

Lemma windows_round_trip_witness :
  Forall window_item_ok [(["x"%char; " "%char], ex_groups, [" "%char])] /\
  no_paren ["."%char] = true /\
  plages_of (finditer (string_of_list_ascii
    (concat (map (fun '(sep, g, sp) => sep ++ window_text g sp)
       [(["x"%char; " "%char], ex_groups, [" "%char])]) ++ ["."%char])))
  = Ok [(1950, 1985)].
Proof.
  assert (H1 : Forall window_item_ok [(["x"%char; " "%char], ex_groups, [" "%char])])
    by (repeat constructor).
  assert (H2 : no_paren ["."%char] = true) by reflexivity.
  split; [exact H1|]. split; [exact H2|].
  rewrite (windows_round_trip _ _ H1 H2). reflexivity.
Defined.

Lemma hour_round_trip_witness :
  all_digits ["2"%char; "5"%char] = true /\ all_digits ["9"%char; "9"%char] = true /\
  convert_hour_to_minutes (VStr "25:99") = Ok (Some 1599).
Proof.
  split; [reflexivity|]. split; [reflexivity|].
  apply (hour_round_trip ["2"%char; "5"%char] ["9"%char; "9"%char]);
    first [reflexivity | cbn; lia].
Defined.

Lemma finditer_no_paren s : no_paren (list_ascii_of_string s) = true -> finditer s = [].
Proof.
  intros H. unfold finditer. rewrite <- (app_nil_r (list_ascii_of_string s)) at 2.
  rewrite finditer_sep by (assumption || lia). apply finditer_fuel_nil.
Qed.

(** X6: on a text with no parenthesis (such as ["nan"]),
    [convertir_en_minutes] returns the empty list when the file opens and
    raises [FileNotFoundError] otherwise, for any fuel. *)
Theorem convertir_en_minutes_no_window (fuel : nat) (s : string) (fs : fsys) (file : string)
    (id_file : Z) :
  no_paren (list_ascii_of_string s) = true ->
  convertir_en_minutes fuel s fs file id_file =
  match fs file with None => Some (Err FileNotFoundError) | Some _ => Some (Ok []) end.
Proof.
  intros H. unfold convertir_en_minutes, read_sillon.
  destruct (fs file) as [wb|]; [|reflexivity].
  rewrite (finditer_no_paren s H). reflexivity.
Qed.

Lemma convertir_en_minutes_no_window_witness :
  no_paren (list_ascii_of_string "nan") = true /\
  convertir_en_minutes 5 "nan" ex_fs "instance.xlsx" 1 = Some (Ok []).
Proof.
  split; [reflexivity|].
  rewrite (convertir_en_minutes_no_window 5 "nan" ex_fs "instance.xlsx" 1 eq_refl).
  reflexivity.
Defined.

Lemma boucle_diverges plages deps id_file :
  plages <> [] -> dernier_depart deps (base_time id_file) = Ok None ->
  forall fuel w acc, boucle fuel plages deps id_file w acc = None.
Proof.
  intros Hp Hd fuel. induction fuel as [|f IH]; intros w acc; [reflexivity|].
  cbn [boucle]. destruct (shift_week w plages) eqn:E.
  - apply shift_week_nil in E. contradiction.
  - rewrite Hd. cbn [gt_horizon]. apply IH.
Qed.

(** X7: when the departure sheet is empty, [base_time id_file] is defined
    and the text has a window, the loop of [convertir_en_minutes] never ends:
    the horizon is NaN and no comparison with it is true. *)
Theorem convertir_en_minutes_empty_departures (s : string) (fs : fsys) (file : string)
    (id_file : Z) (wb : workbook) (w : Z * Z) (ws : list (Z * Z)) :
  fs file = Some wb -> sillons_depart wb = [] -> base_time id_file <> None ->
  plages_of (finditer s) = Ok (w :: ws) ->
  forall fuel, convertir_en_minutes fuel s fs file id_file = None.
Proof.
  intros Hf Hd Hb Hp fuel. unfold convertir_en_minutes, read_sillon.
  rewrite Hf, Hp, Hd. apply boucle_diverges; [discriminate|].
  destruct (base_time id_file); [reflexivity|contradiction].
Qed.

(** X8: when [base_time id_file] is [None] and the text has a window,
    [convertir_en_minutes] raises [TypeError] at its first iteration. *)
Theorem convertir_en_minutes_no_base_time (fuel : nat) (s : string) (fs : fsys) (file : string)
    (id_file : Z) (wb : workbook) (w : Z * Z) (ws : list (Z * Z)) :
  fs file = Some wb -> base_time id_file = None ->
  plages_of (finditer s) = Ok (w :: ws) ->
  convertir_en_minutes (S fuel) s fs file id_file = Some (Err TypeError).
Proof.
  intros Hf Hb Hp. unfold convertir_en_minutes, read_sillon.
  rewrite Hf, Hp. cbn [boucle]. destruct (shift_week 0 (w :: ws)) eqn:E.
  - apply shift_week_nil in E. discriminate.
  - unfold dernier_depart. rewrite Hb. reflexivity.
Qed.

Lemma convertir_en_minutes_empty_departures_witness :
  base_time 0 <> None /\
  plages_of (finditer "(1, 10:00-11:00)") = Ok [(600, 660)] /\
  convertir_en_minutes 1000 "(1, 10:00-11:00)"
    (fun _ => Some (mkworkbook [] [] [])) "vide.xlsx" 0 = None.
Proof.
  assert (Hb : base_time 0 <> None) by discriminate.
  assert (Hp : plages_of (finditer "(1, 10:00-11:00)") = Ok [(600, 660)]) by reflexivity.
  split; [exact Hb|]. split; [exact Hp|].
  exact (convertir_en_minutes_empty_departures "(1, 10:00-11:00)"
           (fun _ => Some (mkworkbook [] [] [])) "vide.xlsx" 0 (mkworkbook [] [] [])
           (600, 660) [] eq_refl eq_refl Hb Hp 1000).
Defined.

Lemma convertir_en_minutes_no_base_time_witness :
  base_time 2 = None /\
  plages_of (finditer "(1, 10:00-11:00)") = Ok [(600, 660)] /\
  convertir_en_minutes 1 "(1, 10:00-11:00)" ex_fs "instance.xlsx" 2 = Some (Err TypeError).
Proof.
  assert (Hp : plages_of (finditer "(1, 10:00-11:00)") = Ok [(600, 660)]) by reflexivity.
  split; [reflexivity|]. split; [exact Hp|].
  exact (convertir_en_minutes_no_base_time 0 "(1, 10:00-11:00)" ex_fs "instance.xlsx" 2
           ex_workbook (600, 660) [] eq_refl eq_refl Hp).
Defined.

Lemma sans_doublons_step e c d r :
  c < d ->
  sans_doublons (e :: aplatir ((c, d) :: r)) =
  if e =? c then sans_doublons (d :: aplatir r) else e :: c :: sans_doublons (d :: aplatir r).
Proof.
  intros Hcd. cbn [aplatir flat_map app]. fold (aplatir r).
  cbn [sans_doublons]. destruct (e =? c); [reflexivity|].
  destruct (Z.eqb_spec c d); [lia|]. reflexivity.
Qed.

Lemma covers_pairs2 a e l x :
  covers (pairs_of (a :: e :: l)) x <-> (a <= x < e) \/ covers (pairs_of l) x.
Proof.
  unfold covers. cbn [pairs_of In]. split.
  - intros (deb & fin & [Heq|Hin] & Hx); [injection Heq as <- <-; left; lia|].
    right. eauto.
  - intros [Hx|(deb & fin & Hin & Hx)]; [exists a, e; auto|]. exists deb, fin. auto.
Qed.

Lemma covers_cons c d r x : covers ((c, d) :: r) x <-> (c <= x < d) \/ covers r x.
Proof.
  unfold covers. cbn [In]. split.
  - intros (deb & fin & [Heq|Hin] & Hx); [injection Heq as <- <-; left; lia|]. right. eauto.
  - intros [Hx|(deb & fin & Hin & Hx)]; [exists c, d; auto|]. exists deb, fin. auto.
Qed.

Lemma covers_nil x : covers [] x <-> False.
Proof. unfold covers. cbn [In]. split; [intros (? & ? & [] & _)|contradiction]. Qed.

Lemma sans_doublons_merge r : windows_sorted r -> forall a e,
  a < e -> match r with [] => True | (c, _) :: _ => e <= c end ->
  let l := a :: sans_doublons (e :: aplatir r) in
  increasing l /\ Nat.Even (length l) /\
  forall x, covers (pairs_of l) x <-> (a <= x < e) \/ covers r x.
Proof.
  induction r as [|[c d] r IH]; intros Hs a e Hae He; cbn zeta.
  - cbn [aplatir flat_map sans_doublons length increasing]. split; [lia|].
    split; [exists 1%nat; reflexivity|]. intros x. rewrite covers_pairs2.
    cbn [pairs_of]. rewrite covers_nil. tauto.
  - destruct Hs as (Hcd & Hdr & Hs). rewrite (sans_doublons_step e c d r Hcd).
    destruct (Z.eqb_spec e c) as [<-|Hne].
    + destruct (IH Hs a d ltac:(lia) Hdr) as (Hi & Hev & Hc). split; [exact Hi|].
      split; [exact Hev|]. intros x. rewrite Hc, covers_cons.
      split; intros [Hx|Hx].
      * destruct (Z_lt_le_dec x e); [left | right; left]; lia.
      * right; right; exact Hx.
      * left; lia.
      * destruct Hx as [Hx|Hx]; [left; lia | right; exact Hx].
    + destruct (IH Hs c d Hcd Hdr) as (Hi & Hev & Hc). cbn [increasing length].
      split; [split; [exact Hae | split; [lia | exact Hi]]|].
      split.
      * destruct Hev as [k Hk]. cbn [length] in Hk. exists (S k). lia.
      * intros x. rewrite covers_pairs2, Hc, covers_cons. tauto.
Qed.

(** X9: for lists of windows sorted in time (each non-empty and ending no
    later than the next starts), [traitement_doublons] of the flattened
    lists gives strictly increasing lists of even length whose consecutive
    pairs cover exactly the same minutes: touching windows are merged. *)
Theorem traitement_doublons_sorted (wss : list (list (Z * Z))) :
  Forall windows_sorted wss ->
  Forall2 (fun ws l => increasing l /\ Nat.Even (length l) /\
                       forall x, covers (pairs_of l) x <-> covers ws x)
    wss (traitement_doublons (map aplatir wss)).
Proof.
  intros H. unfold traitement_doublons. rewrite map_map.
  induction H as [|ws wss Hws Hwss IH]; cbn [map]; constructor; [|exact IH].
  destruct ws as [|[a b] r].
  - cbn. split; [exact I|]. split; [exists 0%nat; reflexivity|]. reflexivity.
  - destruct Hws as (Hab & Hbr & Hr).
    assert (E : sans_doublons (aplatir ((a, b) :: r)) = a :: sans_doublons (b :: aplatir r)).
    { cbn [aplatir flat_map app]. fold (aplatir r). cbn [sans_doublons].
      destruct (Z.eqb_spec a b); [lia|reflexivity]. }
    rewrite E. destruct (sans_doublons_merge r Hr a b Hab Hbr) as (Hi & Hev & Hc).
    split; [exact Hi|]. split; [exact Hev|]. intros x. rewrite Hc, covers_cons. tauto.
Qed.

Lemma traitement_doublons_sorted_witness :
  Forall windows_sorted [[(0, 60); (60, 120); (200, 300)]] /\
  Forall2 (fun ws l => increasing l /\ Nat.Even (length l) /\
                       forall x, covers (pairs_of l) x <-> covers ws x)
    [[(0, 60); (60, 120); (200, 300)]]
    (traitement_doublons (map aplatir [[(0, 60); (60, 120); (200, 300)]])) /\
  traitement_doublons (map aplatir [[(0, 60); (60, 120); (200, 300)]]) = [[0; 120; 200; 300]].
Proof.
  assert (H : Forall windows_sorted [[(0, 60); (60, 120); (200, 300)]])
    by (repeat constructor; cbn; lia).
  split; [exact H|]. split; [exact (traitement_doublons_sorted _ H)|]. reflexivity.
Defined.

Lemma apply_all_ok {A B} (f : A -> option (res B)) l ys :
  Forall2 (fun x y => f x = Some (Ok y)) l ys -> apply_all f l = Some (Ok ys).
Proof. induction 1 as [|x y l ys Hxy _ IH]; [reflexivity|]. cbn. rewrite Hxy, IH. reflexivity. Qed.

Lemma apply_all_first_err {A B} (f : A -> option (res B)) pre x post ys e :
  Forall2 (fun x y => f x = Some (Ok y)) pre ys -> f x = Some (Err e) ->
  apply_all f (pre ++ x :: post) = Some (Err e).
Proof.
  intros H Hx. induction H as [|x' y l ys' Hxy _ IH]; cbn [app apply_all].
  - rewrite Hx. reflexivity.
  - rewrite Hxy, IH. reflexivity.
Qed.

(** X10: when the file opens and every yard row converts, the result of
    [creation_limites_chantiers] maps REC, FOR and DEP to the de-duplicated
    flattened windows of rows 0, 1 and 2; with fewer than three rows it
    raises [IndexError]. *)
Theorem creation_limites_chantiers_rows (fuel : nat) (fs : fsys_classeurs) (file : string)
    (id_file : Z) (c : classeur) (ws : list (list (Z * Z))) :
  fs file = Some c ->
  Forall2 (fun x w => convertir_en_minutes fuel x (sillons_fs fs) file id_file = Some (Ok w))
    (chantiers_indisponibilite c) ws ->
  creation_limites_chantiers fuel fs file id_file =
  match ws with
  | w0 :: w1 :: w2 :: _ =>
      Some (Ok [(Chantiers.REC, sans_doublons (aplatir w0));
                (Chantiers.FOR, sans_doublons (aplatir w1));
                (Chantiers.DEP, sans_doublons (aplatir w2))])
  | _ => Some (Err IndexError)
  end.
Proof.
  intros Hf Hw. unfold creation_limites_chantiers. rewrite Hf.
  rewrite (apply_all_ok _ _ _ Hw). unfold traitement_doublons.
  destruct ws as [|w0 [|w1 [|w2 ws]]]; reflexivity.
Qed.

Lemma creation_limites_chantiers_rows_witness :
  ex_classeurs ["(1, 10:00-11:00)(1, 11:00-12:00)"; "nan"; "(2, 00:00-01:00)"; "nan"]
    "instance.xlsx" <> None /\
  creation_limites_chantiers 10
    (ex_classeurs ["(1, 10:00-11:00)(1, 11:00-12:00)"; "nan"; "(2, 00:00-01:00)"; "nan"])
    "instance.xlsx" 0
  = Some (Ok [(Chantiers.REC, [600; 720]); (Chantiers.FOR, []); (Chantiers.DEP, [1440; 1500])]).
Proof.
  split; [discriminate|].
  rewrite (creation_limites_chantiers_rows 10
    (ex_classeurs ["(1, 10:00-11:00)(1, 11:00-12:00)"; "nan"; "(2, 00:00-01:00)"; "nan"])
    "instance.xlsx" 0
    (mkclasseur ex_workbook ["(1, 10:00-11:00)(1, 11:00-12:00)"; "nan"; "(2, 00:00-01:00)"; "nan"])
    [[(600, 660); (660, 720)]; []; [(1440, 1500)]; []] eq_refl).
  - reflexivity.
  - repeat constructor.
Defined.

(** X11: all yard rows are converted, including those after the third:
    the first row whose conversion raises decides the error of
    [creation_limites_chantiers]. *)
Theorem creation_limites_chantiers_first_error (fuel : nat) (fs : fsys_classeurs)
    (file : string) (id_file : Z) (c : classeur) (pre : list string) (x : string)
    (post : list string) (ws : list (list (Z * Z))) (e : exc) :
  fs file = Some c -> chantiers_indisponibilite c = pre ++ x :: post ->
  Forall2 (fun x w => convertir_en_minutes fuel x (sillons_fs fs) file id_file = Some (Ok w))
    pre ws ->
  convertir_en_minutes fuel x (sillons_fs fs) file id_file = Some (Err e) ->
  creation_limites_chantiers fuel fs file id_file = Some (Err e).
Proof.
  intros Hf Hc Hw Hx. unfold creation_limites_chantiers. rewrite Hf, Hc.
  rewrite (apply_all_first_err _ pre x post ws e Hw Hx). reflexivity.
Qed.

Lemma creation_limites_chantiers_first_error_witness :
  creation_limites_chantiers 10
    (ex_classeurs ["nan"; "nan"; "nan"; "(1, 10:00-11:00)"]) "instance.xlsx" 2
  = Some (Err TypeError).
Proof.
  apply (creation_limites_chantiers_first_error 10
    (ex_classeurs ["nan"; "nan"; "nan"; "(1, 10:00-11:00)"]) "instance.xlsx" 2
    (mkclasseur ex_workbook ["nan"; "nan"; "nan"; "(1, 10:00-11:00)"])
    ["nan"; "nan"; "nan"] "(1, 10:00-11:00)" [] [[]; []; []] TypeError eq_refl eq_refl).
  - repeat constructor.
  - reflexivity.
Defined.

Lemma convert_hour_to_minutes_not_err x e : convert_hour_to_minutes x <> Err e.
Proof.
  unfold convert_hour_to_minutes. destruct x; cbn; try discriminate.
  destruct (hour_try s) eqn:E; [discriminate|].
  apply hour_try_err in E. subst. discriminate.
Qed.

Lemma init_t_rows_fold t rows : init_t_rows t rows = Ok (fold_left t_step rows t).
Proof.
  revert t. induction rows as [|row rows IH]; intros t; [reflexivity|].
  cbn [init_t_rows fold_left]. unfold t_step at 2, row_entry.
  destruct (convert_hour_to_minutes (heure row)) as [o|e] eqn:E;
    [|exfalso; exact (convert_hour_to_minutes_not_err _ _ E)].
  cbn [res_bind]. destruct (jour row), o; apply IH.
Qed.

Lemma snoc_split {A} (pre : list A) row post rows r :
  pre ++ row :: post = rows ++ [r] <->
  (post = [] /\ pre = rows /\ row = r) \/
  (exists post', post = post' ++ [r] /\ rows = pre ++ row :: post').
Proof.
  split.
  - intros H. destruct post as [|x post'].
    + left. apply app_inj_tail in H. intuition.
    + right. destruct (exists_last (l := x :: post') ltac:(discriminate)) as (p' & a & Ea).
      rewrite Ea in H |- *. rewrite app_comm_cons, app_assoc in H.
      apply app_inj_tail in H as [H1 H2]. subst a. exists p'. split; [reflexivity|].
      rewrite <- H1. reflexivity.
  - intros [(-> & -> & ->)|(post' & -> & ->)]; [reflexivity|].
    rewrite <- app_assoc. reflexivity.
Qed.

Lemma t_fold_lookup rows : forall k v,
  fold_left t_step rows ∅ !! k = Some v <->
  exists pre row post, rows = pre ++ row :: post /\ row_entry row = Some (k, v) /\
    Forall (fun row' => forall v', row_entry row' <> Some (k, v')) post.
Proof.
  induction rows as [|r rows IH] using rev_ind; intros k v.
  - cbn. rewrite lookup_empty. split; [discriminate|].
    intros (pre & row & post & H & _). destruct (app_cons_not_nil pre post row H).
  - rewrite fold_left_app. cbn [fold_left]. unfold t_step at 1.
    split.
    + intros H. destruct (row_entry r) as [[k' v']|] eqn:Er.
      * destruct (decide (k = k')) as [<-|Hne].
        { rewrite lookup_insert_eq in H. injection H as <-.
          exists rows, r, []. split; [reflexivity|]. split; [exact Er|constructor]. }
        rewrite lookup_insert_ne in H by congruence.
        apply IH in H as (pre & row & post & -> & Hrow & Hpost).
        exists pre, row, (post ++ [r]). split; [rewrite <- app_assoc; reflexivity|].
        split; [exact Hrow|]. apply Forall_app. split; [exact Hpost|].
        constructor; [|constructor]. intros v'' Hv. congruence.
      * apply IH in H as (pre & row & post & -> & Hrow & Hpost).
        exists pre, row, (post ++ [r]). split; [rewrite <- app_assoc; reflexivity|].
        split; [exact Hrow|]. apply Forall_app. split; [exact Hpost|].
        constructor; [|constructor]. intros v'' Hv. congruence.
    + intros (pre & row & post & Hs & Hrow & Hpost). symmetry in Hs.
      apply snoc_split in Hs as [(-> & -> & ->)|(post' & -> & ->)].
      * rewrite Hrow. apply lookup_insert_eq.
      * apply Forall_app in Hpost as [Hpost' Hr]. inversion Hr as [|? ? Hr' _]; subst.
        assert (Hold : fold_left t_step (pre ++ row :: post') ∅ !! k = Some v).
        { apply IH. exists pre, row, post'. auto. }
        destruct (row_entry r) as [[k' v']|] eqn:Er; [|exact Hold].
        destruct (decide (k = k')) as [<-|Hne]; [exfalso; exact (Hr' v' eq_refl)|].
        rewrite lookup_insert_ne by congruence. exact Hold.
Qed.

(** X12: [init_t_a] and [init_t_d] never raise; they return the same
    dictionary, which maps [k] to [v] exactly when some row gives the entry
    [(k, v)] and no later row gives an entry for [k]: the last row wins. *)
Theorem init_t_a_lookup (rows : list sillon) :
  exists t, init_t_a rows = Ok t /\ init_t_d rows = Ok t /\
  forall k v, t !! k = Some v <->
    exists pre row post, rows = pre ++ row :: post /\ row_entry row = Some (k, v) /\
      Forall (fun row' => forall v', row_entry row' <> Some (k, v')) post.
Proof.
  exists (fold_left t_step rows ∅). split; [apply init_t_rows_fold|].
  split; [apply init_t_rows_fold|]. apply t_fold_lookup.
Qed.

(** X13: the keys of [init_t_a] keep only the day of the month: two rows
    of the same train on the same day of different months give one key,
    and the later row overwrites the earlier. *)
Theorem init_t_a_same_day_collision (n : string) (y1 m1 y2 m2 d : nat) (h1 h2 : pyval)
    (x1 x2 : Z) :
  convert_hour_to_minutes h1 = Ok (Some x1) -> convert_hour_to_minutes h2 = Ok (Some x2) ->
  init_t_a [mksillon n (Some (y1, m1, d)) h1; mksillon n (Some (y2, m2, d)) h2]
  = Ok {[train_id_unique n (y2, m2, d) := days_since_ref (y2, m2, d) * 1440 + x2]}.
Proof.
  intros H1 H2. unfold init_t_a. cbn [init_t_rows heure jour num_train].
  rewrite H1. cbn [res_bind]. rewrite H2. cbn [res_bind].
  unfold train_id_unique. rewrite insert_insert. case_decide; [reflexivity|congruence].
Qed.

Lemma init_t_a_same_day_collision_witness :
  convert_hour_to_minutes (VStr "08:00") = Ok (Some 480) /\
  convert_hour_to_minutes (VStr "09:30") = Ok (Some 570) /\
  init_t_a [mksillon "4412" (Some (2023, 5, 1)%nat) (VStr "08:00");
            mksillon "4412" (Some (2023, 6, 1)%nat) (VStr "09:30")]
  = Ok {["4412_01" := 297 * 1440 + 570]}.
Proof.
  assert (H1 : convert_hour_to_minutes (VStr "08:00") = Ok (Some 480)) by reflexivity.
  assert (H2 : convert_hour_to_minutes (VStr "09:30") = Ok (Some 570)) by reflexivity.
  split; [exact H1|]. split; [exact H2|].
  rewrite (init_t_a_same_day_collision "4412" 2023 5 2023 6 1 _ _ 480 570 H1 H2).
  reflexivity.
Defined.

(** X15: when the file opens and every machine row converts, the result of
    [creation_limites_machines] maps DEB, FOR and DEG to the de-duplicated
    flattened windows of rows 0, 1 and 2; with fewer than three rows it
    raises [IndexError]. *)
Theorem creation_limites_machines_rows (fuel : nat) (fs : fsys) (file : string)
    (id_file : Z) (wb : workbook) (ws : list (list (Z * Z))) :
  fs file = Some wb ->
  Forall2 (fun x w => convertir_en_minutes fuel x fs file id_file = Some (Ok w))
    (machines_indisponibilite wb) ws ->
  creation_limites_machines fuel fs file id_file =
  match ws with
  | w0 :: w1 :: w2 :: _ =>
      Some (Ok [(DEB, sans_doublons (aplatir w0)); (FOR, sans_doublons (aplatir w1));
                (DEG, sans_doublons (aplatir w2))])
  | _ => Some (Err IndexError)
  end.
Proof.
  intros Hf Hw. unfold creation_limites_machines. rewrite Hf.
  rewrite (apply_all_ok _ _ _ Hw). unfold traitement_doublons.
  destruct ws as [|w0 [|w1 [|w2 ws]]]; reflexivity.
Qed.

Lemma creation_limites_machines_rows_witness :
  creation_limites_machines 10 ex_fs "instance.xlsx" 0 =
  Some (Ok [(DEB, [1440; 1500; 0; 60; 11520; 11580; 10080; 10140]);
            (FOR, [600; 540]); (DEG, [])]).
Proof.
  rewrite (creation_limites_machines_rows 10 ex_fs "instance.xlsx" 0 ex_workbook
    [[(1440, 1500); (0, 60); (11520, 11580); (10080, 10140)]; [(600, 540)]; []] eq_refl).
  - reflexivity.
  - repeat constructor.
Defined.

End Utils1Extra.

(* ------------------------------------------------------------------ *)
Module UtilsExtra.
Import Utils.

Lemma append_nil_l (t : string) : String.append "" t = t.
Proof. reflexivity. Qed.

Lemma append_cons_l c (s t : string) : String.append (String c s) t = String c (String.append s t).
Proof. reflexivity. Qed.

Lemma append_space_inj (a a' d d' : string) :
  no_space a = true -> no_space a' = true ->
  String.append a (String.append " " d) = String.append a' (String.append " " d') ->
  a = a' /\ d = d'.
Proof.
  revert a'. induction a as [|c a IH]; intros a' Ha Ha' H; destruct a' as [|c' a'];
    rewrite ?append_nil_l, ?append_cons_l, ?append_nil_l in H; cbn [no_space] in Ha, Ha'.
  - injection H as ->. auto.
  - injection H as <- _. rewrite Ascii.eqb_refl in Ha'. discriminate.
  - injection H as -> _. rewrite Ascii.eqb_refl in Ha. discriminate.
  - apply andb_true_iff in Ha as [_ Ha]. apply andb_true_iff in Ha' as [_ Ha'].
    injection H as <- H. destruct (IH a' Ha Ha' H) as [-> ->]. auto.
Qed.

(** X16: [get_link_id] is injective on arrival identifiers without a
    space: the link identifier determines both train identifiers. *)
Theorem get_link_id_injective (a d a' d' : string) :
  no_space a = true -> no_space a' = true ->
  get_link_id a d = get_link_id a' d' -> a = a' /\ d = d'.
Proof. unfold get_link_id. apply append_space_inj. Qed.

Lemma get_link_id_injective_witness :
  no_space "4412_01" = true /\ no_space "4412_02" = true /\
  get_link_id "4412_01" "5120_02" <> get_link_id "4412_02" "5120_02".
Proof.
  split; [reflexivity|]. split; [reflexivity|].
  intros H. destruct (get_link_id_injective "4412_01" "5120_02" "4412_02" "5120_02"
    eq_refl eq_refl H) as [E _].
  discriminate E.
Defined.

End UtilsExtra.
